(** * ft5x06-register-tool: a shallow embedding of [ft5x06-register-tool.c]

    The tool reads or writes one 8-bit register of an FT5x06 touch
    controller through the Linux [i2c-dev] interface.  The embedding below
    follows the C file function by function.  System calls are modelled as
    events of a trace; what the kernel answers is taken from an oracle
    ([env]).  [strtol] belongs to libc and is a parameter of the parser;
    [C_strtol] is an executable instance used for concrete runs. *)

From Stdlib Require Import ZArith List String Ascii Bool Lia.
From Stdlib Require Import Strings.Byte.
Import ListNotations.
Local Open Scope string_scope.
Local Open Scope Z_scope.

(** ** C integer conversions *)

Module CInt.

(** Conversion to [uint8_t]: reduction modulo 256. *)
Definition to_uint8 (z : Z) : Z := z mod 256.

(** Conversion to [uint16_t]: reduction modulo 2^16. *)
Definition to_uint16 (z : Z) : Z := z mod 2 ^ 16.

(** Conversion to [unsigned int] (32 bits). *)
Definition to_uint32 (z : Z) : Z := z mod 2 ^ 32.

(** Conversion of a [long] to [int]: implementation-defined in C; GCC
    reduces modulo 2^32 into the signed range. *)
Definition to_int (z : Z) : Z := (z + 2 ^ 31) mod 2 ^ 32 - 2 ^ 31.

Definition INT_MAX : Z := 2 ^ 31 - 1.

(** Value of a byte of memory. *)
Definition of_byte (b : byte) : Z := Z.of_N (Byte.to_N b).

End CInt.
Export CInt.

(** ** printf conversions used by the tool *)

Module Fmt.

Definition nl : string := String "010"%char EmptyString.
Definition tab : string := String "009"%char EmptyString.

Definition digit_char (d : Z) : ascii :=
  nth (Z.to_nat d) (list_ascii_of_string "0123456789abcdef") "0"%char.

(** Digits of a non-negative number, most significant first.  [fuel]
    bounds the number of digits produced: 8 suffice for a 32-bit value in
    base 16, 10 in base 10. *)
Fixpoint utoa (base : Z) (fuel : nat) (n : Z) (acc : string) : string :=
  match fuel with
  | O => acc
  | S fuel' =>
      let acc' := String (digit_char (n mod base)) acc in
      if n / base =? 0 then acc' else utoa base fuel' (n / base) acc'
  end.

(** [%x] applied to an [int]: the argument is read as [unsigned int]. *)
Definition fmt_x (v : Z) : string := utoa 16 8 (to_uint32 v) "".

(** [%02x]: as [%x], padded with zeros on the left to width two. *)
Definition fmt_02x (v : Z) : string :=
  let s := fmt_x v in
  if (Z.of_nat (String.length s) <? 2) then "0" ++ s else s.

(** [%d] applied to an [int]. *)
Definition fmt_d (v : Z) : string :=
  if v <? 0 then "-" ++ utoa 10 10 (- v) "" else utoa 10 10 v "".

End Fmt.
Export Fmt.

(** ** Data of the program *)

(** [struct ft5x06_ts]. *)
Record ft5x06_ts := mk_ts {
  fd : Z;
  bus : Z;
  addr : Z;
  chip_id : Z;
  fw_ver : Z
}.

(** [I2C_M_RD], from [linux/i2c.h]. *)
Definition I2C_M_RD : Z := 1.

(** [struct i2c_msg], from [linux/i2c.h].  [msg_buf] is the content of the
    memory the [buf] pointer refers to when the request is submitted. *)
Record i2c_msg := mk_msg {
  msg_addr : Z;
  msg_flags : Z;
  msg_len : Z;
  msg_buf : list Z
}.

(** [struct i2c_rdwr_ioctl_data], from [linux/i2c-dev.h]. *)
Record i2c_rdwr_ioctl_data := mk_data {
  msgs : list i2c_msg;
  nmsgs : Z
}.

(** The local variables of [main] that the argument loop assigns. *)
Record main_vars := mk_vars {
  ts : ft5x06_ts;
  readaddr : Z;
  writeaddr : Z;
  writevalue : Z
}.

(** ** System calls and their trace *)

Inductive event : Type :=
| EvOpen (dev : string)
| EvSlaveForce (handle : Z) (target : Z)
| EvRdwr (handle : Z) (data : i2c_rdwr_ioctl_data)
| EvClose (handle : Z)
| EvStdout (s : string)
| EvStderr (s : string).

(** What the operating system answers.  [os_rdwr] gives the result of
    [ioctl(fd, I2C_RDWR, data)] and the bytes the driver stored for the read
    message, if any.  [os_rbuf] is the content of the uninitialised local
    [rbuf] of [main]. *)
Record env := mk_env {
  os_open : string -> Z;
  os_strerror : string;
  os_slave_force : Z -> Z -> Z;
  os_rdwr : Z -> i2c_rdwr_ioctl_data -> Z * list byte;
  os_rbuf : byte
}.

(** How [main] ends. *)
Inductive outcome : Type :=
| Returned (code : Z)     (* [return code;] from [main] *)
| Exited (code : Z)       (* [exit(code)] *)
| Undefined.              (* [strtol(NULL, ...)]: no defined behaviour *)

(** A small trace monad: a computation yields the events it performed and
    a value. *)
Module IO.

Definition t (A : Type) : Type := (list event * A)%type.

Definition ret {A} (a : A) : t A := ([], a).

Definition bind {A B} (m : t A) (k : A -> t B) : t B :=
  let (tr1, a) := m in
  let (tr2, b) := k a in
  ((tr1 ++ tr2)%list, b).

Definition emit (ev : event) : t unit := ([ev], tt).

End IO.

Declare Scope io_scope.
Delimit Scope io_scope with io.
Notation "x <- m ;; k" := (IO.bind m (fun x => k))
  (at level 61, m at next level, right associativity) : io_scope.
Notation "m ;; k" := (IO.bind m (fun _ => k))
  (at level 61, right associativity) : io_scope.
Local Open Scope io_scope.

(** [LOG] and [ERR]: [fprintf(stream, "[%s]: " fmt "\n", __func__, ...)]. *)
Definition LOG (func text : string) : IO.t unit :=
  IO.emit (EvStdout ("[" ++ func ++ "]: " ++ text ++ nl)).

Definition ERR (func text : string) : IO.t unit :=
  IO.emit (EvStderr ("[" ++ func ++ "]: " ++ text ++ nl)).

(** The driver stores the bytes it received at the start of the read
    buffer, at most [len] of them; the rest of the buffer keeps its
    content. *)
Fixpoint store_bytes (len : nat) (received : list byte) (buf : list Z)
  : list Z :=
  match len, received, buf with
  | S len', b :: received', _ :: buf' =>
      of_byte b :: store_bytes len' received' buf'
  | _, _, _ => buf
  end.

(** [ioctl(fd, I2C_RDWR, &data)] with [rdbuf] the buffer of the read
    message: the result and the buffer afterwards. *)
Definition ioctl_rdwr (e : env) (fd : Z) (data : i2c_rdwr_ioctl_data)
  (rdlen : Z) (rdbuf : list Z) : IO.t (Z * list Z) :=
  IO.emit (EvRdwr fd data) ;;
  let (r, received) := os_rdwr e fd data in
  IO.ret (r, store_bytes (Z.to_nat rdlen) received rdbuf).

(** ** The functions of the C file *)

(** [ft5x06_i2c_read] (lines 100-127).  The two length parameters are
    [uint16_t]: an argument is reduced modulo 2^16 on entry. *)
Definition ft5x06_i2c_read (e : env) (ts : ft5x06_ts)
  (wrbuf : list Z) (wrlen : Z) (rdbuf : list Z) (rdlen : Z)
  : IO.t (Z * list Z) :=
  let wrlen := to_uint16 wrlen in
  let rdlen := to_uint16 rdlen in
  let data :=
    if wrlen >? 0 then
      mk_data [ mk_msg (addr ts) 0 wrlen wrbuf;
                mk_msg (addr ts) I2C_M_RD rdlen rdbuf ] 2
    else
      mk_data [ mk_msg (addr ts) I2C_M_RD rdlen rdbuf ] 1 in
  res <- ioctl_rdwr e (fd ts) data rdlen rdbuf ;;
  (if fst res <? 0 then ERR "ft5x06_i2c_read" ("Error " ++ fmt_d (fst res))
   else IO.ret tt) ;;
  IO.ret res.

(** [ft5x06_i2c_write] (lines 129-145).  The length parameter is a
    [uint16_t].  There is no read message, so no buffer is filled. *)
Definition ft5x06_i2c_write (e : env) (ts : ft5x06_ts)
  (buf : list Z) (len : Z) : IO.t Z :=
  let len := to_uint16 len in
  let data := mk_data [ mk_msg (addr ts) 0 len buf ] 1 in
  res <- ioctl_rdwr e (fd ts) data 0 [] ;;
  (if fst res <? 0 then ERR "ft5x06_i2c_write" ("Error " ++ fmt_d (fst res))
   else IO.ret tt) ;;
  IO.ret (fst res).

(** [ft5x06_write_reg] (lines 147-155): the parameters are [uint8_t]. *)
Definition ft5x06_write_reg (e : env) (ts : ft5x06_ts) (regnum value : Z)
  : IO.t unit :=
  let regnval := [ to_uint8 regnum; to_uint8 value ] in
  ft5x06_i2c_write e ts regnval (Z.of_nat (List.length regnval)) ;;
  IO.ret tt.

(** [show_help] (lines 157-170). *)
Definition show_help (name : string) : IO.t unit :=
  IO.emit (EvStdout (
    "FT5x06 tool usage: " ++ name ++ " [OPTIONS]" ++ nl ++ "OPTIONS:" ++ nl
    ++ tab ++ "-a, --address" ++ nl ++ tab ++ tab
    ++ "I2C address of the FT5x06 controller (hex). "
    ++ "Default is 0x38." ++ nl
    ++ tab ++ "-b, --bus" ++ nl ++ tab ++ tab
    ++ "I2C bus the FT5x06 controller is on. "
    ++ "Default is 3." ++ nl
    ++ tab ++ "-r, --read" ++ nl ++ tab ++ tab ++ "Address to read from." ++ nl
    ++ tab ++ "-w, --write" ++ nl ++ tab ++ tab ++ "Address to write to." ++ nl
    ++ tab ++ "-v, --value" ++ nl ++ tab ++ tab ++ "Value to write" ++ nl
    ++ tab ++ "-h, --help" ++ nl ++ tab ++ tab
    ++ "Show this help and exit." ++ nl)).

(** ** libc's [strtol]

    [strtol] is not code of the tool.  The parser below takes it as a
    parameter; this instance follows ISO C (7.22.1.4) for the bases the tool
    uses, with a 64-bit [long], and serves to run the program on concrete
    command lines. *)
Module Libc.

Definition LONG_MAX : Z := 2 ^ 63 - 1.
Definition LONG_MIN : Z := - 2 ^ 63.

Definition isspace (c : ascii) : bool :=
  let n := Z.of_nat (nat_of_ascii c) in
  (n =? 32) || ((9 <=? n) && (n <=? 13)).

Fixpoint skip_space (s : string) : string :=
  match s with
  | String c s' => if isspace c then skip_space s' else s
  | EmptyString => s
  end.

Definition digit_value (c : ascii) : option Z :=
  let n := Z.of_nat (nat_of_ascii c) in
  if (48 <=? n) && (n <=? 57) then Some (n - 48)
  else if (97 <=? n) && (n <=? 122) then Some (n - 87)
  else if (65 <=? n) && (n <=? 90) then Some (n - 55)
  else None.

Definition is_digit (base : Z) (c : ascii) : bool :=
  match digit_value c with
  | Some d => d <? base
  | None => false
  end.

Fixpoint accumulate (base : Z) (s : string) (acc : Z) : Z :=
  match s with
  | String c s' =>
      match digit_value c with
      | Some d => if d <? base then accumulate base s' (acc * base + d)
                  else acc
      | None => acc
      end
  | EmptyString => acc
  end.

Definition strip_sign (s : string) : bool * string :=
  match s with
  | String "-"%char s' => (true, s')
  | String "+"%char s' => (false, s')
  | _ => (false, s)
  end.

Definition strip_0x (base : Z) (s : string) : string :=
  match s with
  | String "0"%char (String x (String c s')) =>
      if (base =? 16) && (Ascii.eqb x "x" || Ascii.eqb x "X")
         && is_digit 16 c
      then String c s' else s
  | _ => s
  end.

Definition strtol (s : string) (base : Z) : Z :=
  let (neg, s1) := strip_sign (skip_space s) in
  let n := accumulate base (strip_0x base s1) 0 in
  Z.max LONG_MIN (Z.min LONG_MAX (if neg then - n else n)).

End Libc.

Definition C_strtol : string -> Z -> Z := Libc.strtol.

(** ** Observations on a trace *)

Definition rdwr_calls (tr : list event) : list (Z * i2c_rdwr_ioctl_data) :=
  flat_map (fun ev => match ev with EvRdwr h d => [(h, d)] | _ => [] end) tr.

Definition close_calls (tr : list event) : list Z :=
  flat_map (fun ev => match ev with EvClose h => [h] | _ => [] end) tr.

Definition stdout_lines (tr : list event) : list string :=
  flat_map (fun ev => match ev with EvStdout s => [s] | _ => [] end) tr.

Definition stderr_lines (tr : list event) : list string :=
  flat_map (fun ev => match ev with EvStderr s => [s] | _ => [] end) tr.

(** ** [main] *)

Inductive parse_result : Type :=
| Parsed (v : main_vars)   (* the loop ran to the end of [argv] *)
| Help                     (* an unknown argument: [show_help], [exit(1)] *)
| NullArg.                 (* an option in last place: [strtol(argv[argc])] *)

Definition set_fd (v : main_vars) (x : Z) : main_vars :=
  let t := ts v in
  mk_vars (mk_ts x (bus t) (addr t) (chip_id t) (fw_ver t))
          (readaddr v) (writeaddr v) (writevalue v).

Definition set_bus (v : main_vars) (x : Z) : main_vars :=
  let t := ts v in
  mk_vars (mk_ts (fd t) x (addr t) (chip_id t) (fw_ver t))
          (readaddr v) (writeaddr v) (writevalue v).

Definition set_addr (v : main_vars) (x : Z) : main_vars :=
  let t := ts v in
  mk_vars (mk_ts (fd t) (bus t) x (chip_id t) (fw_ver t))
          (readaddr v) (writeaddr v) (writevalue v).

Definition set_readaddr (v : main_vars) (x : Z) : main_vars :=
  mk_vars (ts v) x (writeaddr v) (writevalue v).

Definition set_writeaddr (v : main_vars) (x : Z) : main_vars :=
  mk_vars (ts v) (readaddr v) x (writevalue v).

Definition set_writevalue (v : main_vars) (x : Z) : main_vars :=
  mk_vars (ts v) (readaddr v) (writeaddr v) x.

(** Lines 174-175: the initial values. *)
Definition main_init : main_vars :=
  mk_vars (mk_ts (-1) 3 0x38 0xff 0xff) (-1) (-1) (-1).

(** [strcmp(arg, short) == 0 || strcmp(arg, long) == 0]. *)
Definition is_opt (arg short long : string) : bool :=
  String.eqb arg short || String.eqb arg long.

(** Lines 220-229: the three checks, in the order of the source; the
    result is the message logged before [goto end], if any. *)
Definition check_request (v : main_vars) : option string :=
  if (writeaddr v >=? 0) && (readaddr v >=? 0) then
    Some "Received both read and write"
  else if (writeaddr v <=? 0) && (writevalue v >=? 0) then
    Some "Didn't receive write address"
  else if (writeaddr v >=? 0) && (writevalue v <=? 0) then
    Some "Didn't receive write value"
  else None.

(** Line 205: [sprintf(dev, "/dev/i2c-%d", ts.bus)]. *)
Definition dev_path (t : ft5x06_ts) : string := "/dev/i2c-" ++ fmt_d (bus t).

(** Lines 232-235: the register read.  The value is the pair of [ret] and
    [rbuf] after the call. *)
Definition main_read (e : env) (t : ft5x06_ts) (readaddr : Z)
  : IO.t (Z * Z) :=
  let wbuf := to_uint8 readaddr in
  let rbuf := of_byte (os_rbuf e) in
  res <- ft5x06_i2c_read e t [wbuf] 1 [rbuf] 1 ;;
  let rbuf := hd rbuf (snd res) in
  LOG "main" (fmt_02x rbuf ++ nl) ;;
  IO.ret (fst res, rbuf).

(** Lines 237-239: the register write. *)
Definition main_write (e : env) (t : ft5x06_ts) (writeaddr writevalue : Z)
  : IO.t unit :=
  ft5x06_write_reg e t writeaddr writevalue ;;
  LOG "main" (fmt_02x writeaddr ++ " = " ++ fmt_02x writevalue).

(** Lines 220-240: everything between the bind and the label [end]. *)
Definition main_request (e : env) (v : main_vars) : IO.t unit :=
  match check_request v with
  | Some msg => LOG "main" msg
  | None =>
      if readaddr v >=? 0 then
        main_read e (ts v) (readaddr v) ;; IO.ret tt
      else if writeaddr v >=? 0 then
        main_write e (ts v) (writeaddr v) (writevalue v)
      else IO.ret tt
  end.

Section Program.

Variable strtol : string -> Z -> Z.

(** Lines 182-203: the argument loop, over [argv[1..argc-1]].  Every
    option takes the next element of [argv] as its value without looking
    at it; past the last argument that element is the null pointer. *)
Fixpoint parse_args (args : list string) (v : main_vars) : parse_result :=
  match args with
  | [] => Parsed v
  | a :: rest =>
      if is_opt a "-a" "--address" then
        match rest with
        | s :: rest' =>
            parse_args rest' (set_addr v (to_uint8 (strtol s 16)))
        | [] => NullArg
        end
      else if is_opt a "-b" "--bus" then
        match rest with
        | s :: rest' =>
            parse_args rest' (set_bus v (to_uint8 (strtol s 10)))
        | [] => NullArg
        end
      else if is_opt a "-r" "--read" then
        match rest with
        | s :: rest' =>
            parse_args rest' (set_readaddr v (to_int (strtol s 16)))
        | [] => NullArg
        end
      else if is_opt a "-w" "--write" then
        match rest with
        | s :: rest' =>
            parse_args rest' (set_writeaddr v (to_int (strtol s 16)))
        | [] => NullArg
        end
      else if is_opt a "-v" "--value" then
        match rest with
        | s :: rest' =>
            parse_args rest' (set_writevalue v (to_int (strtol s 16)))
        | [] => NullArg
        end
      else Help
  end.

(** Lines 205-243, once the arguments are parsed. *)
Definition main_session (e : env) (v : main_vars) : IO.t outcome :=
  let dev := dev_path (ts v) in
  IO.emit (EvOpen dev) ;;
  let v := set_fd v (os_open e dev) in
  if fd (ts v) <? 0 then
    LOG "main" ("Couldn't open " ++ dev ++ ": " ++ os_strerror e) ;;
    IO.ret (Returned (fd (ts v)))
  else
    IO.emit (EvSlaveForce (fd (ts v)) (addr (ts v))) ;;
    let ret := os_slave_force e (fd (ts v)) (addr (ts v)) in
    if negb (ret =? 0) then
      LOG "main" ("Couldn't set slave addr: " ++ os_strerror e) ;;
      IO.ret (Returned (-1))
    else
      main_request e v ;;
      IO.emit (EvClose (fd (ts v))) ;;
      IO.ret (Returned 0).

(** [main] (lines 172-244). *)
Definition main (argv : list string) (e : env) : IO.t outcome :=
  match parse_args (tl argv) main_init with
  | Parsed v => main_session e v
  | Help => show_help (hd "" argv) ;; IO.ret (Exited 1)
  | NullArg => IO.ret Undefined
  end.

End Program.

(** ** Concrete runs *)

Module Runs.

(** A controller that answers every read with [0x12]; every call
    succeeds and [open] gives descriptor 3. *)
Definition good : env :=
  mk_env (fun _ => 3) "" (fun _ _ => 0)
         (fun _ d => (Z.of_nat (List.length (msgs d)), [x12%byte]))
         x00%byte.

(** No device node: [open] fails. *)
Definition no_device : env :=
  mk_env (fun _ => -1) "No such file or directory" (fun _ _ => 0)
         (fun _ d => (Z.of_nat (List.length (msgs d)), [x12%byte]))
         x00%byte.

(** The device node opens, the driver refuses the target address. *)
Definition bind_refused : env :=
  mk_env (fun _ => 3) "Invalid argument" (fun _ _ => -1)
         (fun _ d => (Z.of_nat (List.length (msgs d)), [x12%byte]))
         x00%byte.

(** Nothing answers on the bus: every transfer fails and stores
    nothing. *)
Definition silent_bus : env :=
  mk_env (fun _ => 3) "" (fun _ _ => 0) (fun _ _ => (-1, [])) x5a%byte.

Definition run (argv : list string) (e : env) := main C_strtol argv e.

End Runs.

(** ** Vocabulary of the specification *)

(** The device node opens: [open] gives a descriptor. *)
Definition opens (e : env) (v : main_vars) : Prop :=
  0 <= os_open e (dev_path (ts v)).

(** The forced bind of the target address succeeds. *)
Definition binds (e : env) (v : main_vars) : Prop :=
  os_slave_force e (os_open e (dev_path (ts v))) (addr (ts v)) = 0.

(** The line an [ERR("Error %d", ret)] of function [func] writes. *)
Definition error_line (func : string) (r : Z) : string :=
  "[" ++ func ++ "]: Error " ++ fmt_d r ++ nl.

(** What a transfer function writes to [stderr] for result [r]. *)
Definition error_events (func : string) (r : Z) : list event :=
  if r <? 0 then [EvStderr (error_line func r)] else [].

(** The combined request of a register read. *)
Definition read_request (t : ft5x06_ts) (address : Z) (rbuf : Z)
  : i2c_rdwr_ioctl_data :=
  mk_data [ mk_msg (addr t) 0 1 [address];
            mk_msg (addr t) I2C_M_RD 1 [rbuf] ] 2.

(** The request of a register write. *)
Definition write_request (t : ft5x06_ts) (address value : Z)
  : i2c_rdwr_ioctl_data :=
  mk_data [ mk_msg (addr t) 0 2 [address; value] ] 1.

(** A message is a read message when [I2C_M_RD] is set in its flags. *)
Definition is_read_msg (m : i2c_msg) : bool :=
  negb (Z.land (msg_flags m) I2C_M_RD =? 0).

(** A byte written with exactly two hexadecimal digits. *)
Definition two_digit_hex (n : Z) : string :=
  String (digit_char (n / 16)) (String (digit_char (n mod 16)) EmptyString).



(** The three rejection messages of [main]. *)
Definition rejections : list string :=
  [ "Received both read and write";
    "Didn't receive write address";
    "Didn't receive write value" ].

(** The values of type [int]. *)
Definition is_int (z : Z) : Prop := - 2 ^ 31 <= z <= INT_MAX.


(** The status the parent process sees: the low eight bits of the value
    [main] returns. *)
Definition exit_status (code : Z) : Z := code mod 256.

Create HintDb ints.


(** An argument the loop of [main] takes for an option (lines 183-197). *)
Definition is_option (a : string) : bool :=
  is_opt a "-a" "--address" || is_opt a "-b" "--bus"
  || is_opt a "-r" "--read" || is_opt a "-w" "--write"
  || is_opt a "-v" "--value".

(** Line 176: [char dev[16]]. *)
Definition DEV_SIZE : nat := 16.

(** The fields of [ts] after the argument loop: [fd], [chip_id] and
    [fw_ver] as initialised, [bus] and [addr] within [uint8_t]. *)
Definition ts_after_loop (t : ft5x06_ts) : Prop :=
  fd t = -1 /\ chip_id t = 0xff /\ fw_ver t = 0xff
  /\ 0 <= bus t <= 255 /\ 0 <= addr t <= 255.

(** The length field of a message equals the size of the buffer it points
    to. *)
Definition msg_fits (m : i2c_msg) : Prop :=
  msg_len m = Z.of_nat (List.length (msg_buf m)).

(** A request that passes the checks and names a register to read. *)
Definition read_only (v : main_vars) : Prop :=
  readaddr v >= 0 /\ writeaddr v < 0 /\ writevalue v < 0.

(** A request that passes the checks and names a register to write. *)
Definition write_only (v : main_vars) : Prop :=
  readaddr v < 0 /\ writeaddr v > 0 /\ writevalue v > 0.

(** The assignment one option-value pair makes (lines 183-197). *)
Definition assign (strtol : string -> Z -> Z) (a s : string)
  (v : main_vars) : main_vars :=
  if is_opt a "-a" "--address" then set_addr v (to_uint8 (strtol s 16))
  else if is_opt a "-b" "--bus" then set_bus v (to_uint8 (strtol s 10))
  else if is_opt a "-r" "--read" then set_readaddr v (to_int (strtol s 16))
  else if is_opt a "-w" "--write" then
    set_writeaddr v (to_int (strtol s 16))
  else if is_opt a "-v" "--value" then
    set_writevalue v (to_int (strtol s 16))
  else v.



(** ** Equations of the transfer functions *)

Lemma rdwr_calls_app (a b : list event) :
  rdwr_calls (a ++ b) = (rdwr_calls a ++ rdwr_calls b)%list.
Proof. apply flat_map_app. Qed.

Lemma close_calls_app (a b : list event) :
  close_calls (a ++ b) = (close_calls a ++ close_calls b)%list.
Proof. apply flat_map_app. Qed.

Lemma stdout_lines_app (a b : list event) :
  stdout_lines (a ++ b) = (stdout_lines a ++ stdout_lines b)%list.
Proof. apply flat_map_app. Qed.

Lemma stderr_lines_app (a b : list event) :
  stderr_lines (a ++ b) = (stderr_lines a ++ stderr_lines b)%list.
Proof. apply flat_map_app. Qed.

Lemma error_events_quiet func r :
  rdwr_calls (error_events func r) = []
  /\ close_calls (error_events func r) = []
  /\ stdout_lines (error_events func r) = [].
Proof. unfold error_events. destruct (r <? 0); repeat split. Qed.

Lemma ft5x06_i2c_read_eq e t wrbuf wrlen rdbuf rdlen :
  let data :=
    if to_uint16 wrlen >? 0 then
      mk_data [ mk_msg (addr t) 0 (to_uint16 wrlen) wrbuf;
                mk_msg (addr t) I2C_M_RD (to_uint16 rdlen) rdbuf ] 2
    else mk_data [ mk_msg (addr t) I2C_M_RD (to_uint16 rdlen) rdbuf ] 1 in
  let answer := os_rdwr e (fd t) data in
  ft5x06_i2c_read e t wrbuf wrlen rdbuf rdlen =
  (EvRdwr (fd t) data :: error_events "ft5x06_i2c_read" (fst answer),
   (fst answer,
    store_bytes (Z.to_nat (to_uint16 rdlen)) (snd answer) rdbuf)).
Proof.
  intros data answer. subst answer.
  unfold ft5x06_i2c_read, ioctl_rdwr, error_events, error_line, ERR.
  fold data. destruct (os_rdwr e (fd t) data) as [r received].
  cbn [IO.bind IO.emit IO.ret fst snd app].
  destruct (r <? 0); reflexivity.
Qed.

Lemma ft5x06_i2c_write_eq e t buf len :
  let data := mk_data [ mk_msg (addr t) 0 (to_uint16 len) buf ] 1 in
  let answer := os_rdwr e (fd t) data in
  ft5x06_i2c_write e t buf len =
  (EvRdwr (fd t) data :: error_events "ft5x06_i2c_write" (fst answer),
   fst answer).
Proof.
  intros data answer. subst answer.
  unfold ft5x06_i2c_write, ioctl_rdwr, error_events, error_line, ERR.
  fold data. destruct (os_rdwr e (fd t) data) as [r received].
  cbn [IO.bind IO.emit IO.ret fst snd app].
  destruct (r <? 0); reflexivity.
Qed.

Lemma ft5x06_write_reg_eq e t regnum value :
  let data := write_request t (to_uint8 regnum) (to_uint8 value) in
  ft5x06_write_reg e t regnum value =
  (EvRdwr (fd t) data
     :: error_events "ft5x06_i2c_write" (fst (os_rdwr e (fd t) data)), tt).
Proof.
  intros data. unfold ft5x06_write_reg.
  rewrite ft5x06_i2c_write_eq. cbn [IO.bind IO.ret List.length Z.of_nat].
  rewrite app_nil_r. reflexivity.
Qed.

Lemma to_uint8_byte z : 0 <= z <= 255 -> to_uint8 z = z.
Proof. intros H. unfold to_uint8. apply Z.mod_small. lia. Qed.

Lemma main_read_eq e t address :
  let rbuf0 := of_byte (os_rbuf e) in
  let data := read_request t (to_uint8 address) rbuf0 in
  let answer := os_rdwr e (fd t) data in
  let rbuf := hd rbuf0 (store_bytes 1 (snd answer) [rbuf0]) in
  main_read e t address =
  ((EvRdwr (fd t) data :: error_events "ft5x06_i2c_read" (fst answer))
     ++ [EvStdout ("[main]: " ++ (fmt_02x rbuf ++ nl) ++ nl)],
   (fst answer, rbuf))%list.
Proof.
  intros rbuf0 data answer rbuf. unfold main_read.
  rewrite ft5x06_i2c_read_eq.
  change (if 1 >? 0 then _ else _) with data. fold rbuf0 answer.
  cbn [IO.bind IO.ret fst snd LOG IO.emit Z.to_nat Pos.to_nat Pos.iter_op].
  fold rbuf. rewrite app_nil_r. reflexivity.
Qed.

Lemma main_write_eq e t address value :
  let data := write_request t (to_uint8 address) (to_uint8 value) in
  main_write e t address value =
  ((EvRdwr (fd t) data
      :: error_events "ft5x06_i2c_write" (fst (os_rdwr e (fd t) data)))
     ++ [EvStdout
           ("[main]: " ++ (fmt_02x address ++ " = " ++ fmt_02x value) ++ nl)],
   tt)%list.
Proof.
  intros data. unfold main_write. rewrite ft5x06_write_reg_eq.
  reflexivity.
Qed.

(** ** The register operations *)

(** C1.  For every register address in [0,255] the register read of [main]
    submits exactly one [I2C_RDWR] request.  The request holds two messages
    for the target: a write of length 1 whose buffer is [address], followed
    by a read of length 1.  Whatever byte the driver stores for the read
    message is the value of [rbuf] afterwards, unchanged, together with the
    result of the call. *)
Theorem C1_read_is_one_combined_transaction :
  forall (e : env) (t : ft5x06_ts) (address : Z),
    0 <= address <= 255 ->
    let data :=
      mk_data [ mk_msg (addr t) 0 1 [address];
                mk_msg (addr t) I2C_M_RD 1 [of_byte (os_rbuf e)] ] 2 in
    rdwr_calls (fst (main_read e t address)) = [(fd t, data)]
    /\ map is_read_msg (msgs data) = [false; true]
    /\ forall r b rest,
         os_rdwr e (fd t) data = (r, b :: rest) ->
         snd (main_read e t address) = (r, of_byte b).
Proof.
  intros e t address Haddr data.
  rewrite main_read_eq, (to_uint8_byte address Haddr).
  fold (read_request t address (of_byte (os_rbuf e))).
  change (read_request t address (of_byte (os_rbuf e))) with data.
  cbn [fst snd].
  split; [| split].
  - rewrite rdwr_calls_app. cbn [rdwr_calls flat_map app].
    destruct (error_events_quiet "ft5x06_i2c_read"
                (fst (os_rdwr e (fd t) data))) as [Hq _].
    unfold rdwr_calls in Hq. rewrite Hq. reflexivity.
  - reflexivity.
  - intros r b rest Hans. rewrite Hans. reflexivity.
Qed.

Lemma C1_read_is_one_combined_transaction_witness :
  0 <= 0xa6 <= 255
  /\ rdwr_calls (fst (main_read Runs.good (mk_ts 3 3 0x38 0xff 0xff) 0xa6))
  = [(3, mk_data [ mk_msg 0x38 0 1 [0xa6]; mk_msg 0x38 1 1 [0] ] 2)]
  /\ snd (main_read Runs.good (mk_ts 3 3 0x38 0xff 0xff) 0xa6) = (2, 0x12).
Proof.
  assert (Hrange : 0 <= 0xa6 <= 255) by lia.
  destruct (C1_read_is_one_combined_transaction
              Runs.good (mk_ts 3 3 0x38 0xff 0xff) 0xa6 Hrange)
    as [Hcalls [_ Hbyte]].
  split; [exact Hrange | split].
  - exact Hcalls.
  - exact (Hbyte 2 x12%byte [] eq_refl).
Defined.

(** C2.  For every register address and value in [0,255],
    [ft5x06_write_reg] submits exactly one [I2C_RDWR] request; it holds a
    single write message of length 2 whose buffer is [address; value], in
    that order.  No message of the request is a read message, and no
    further request follows. *)
Theorem C2_write_is_one_two_byte_message :
  forall (e : env) (t : ft5x06_ts) (address value : Z),
    0 <= address <= 255 ->
    0 <= value <= 255 ->
    let data := mk_data [ mk_msg (addr t) 0 2 [address; value] ] 1 in
    rdwr_calls (fst (ft5x06_write_reg e t address value)) = [(fd t, data)]
    /\ existsb is_read_msg (msgs data) = false.
Proof.
  intros e t address value Ha Hv data.
  rewrite ft5x06_write_reg_eq.
  rewrite (to_uint8_byte address Ha), (to_uint8_byte value Hv).
  change (write_request t address value) with data.
  split; [| reflexivity].
  cbn [fst rdwr_calls flat_map app].
  destruct (error_events_quiet "ft5x06_i2c_write"
              (fst (os_rdwr e (fd t) data))) as [Hq _].
  unfold rdwr_calls in Hq. rewrite Hq. reflexivity.
Qed.

Lemma C2_write_is_one_two_byte_message_witness :
  0 <= 0x86 <= 255 /\ 0 <= 0x08 <= 255
  /\ rdwr_calls
    (fst (ft5x06_write_reg Runs.good (mk_ts 3 3 0x38 0xff 0xff) 0x86 0x08))
  = [(3, mk_data [ mk_msg 0x38 0 2 [0x86; 0x08] ] 1)].
Proof.
  assert (Ha : 0 <= 0x86 <= 255) by lia.
  assert (Hv : 0 <= 0x08 <= 255) by lia.
  split; [exact Ha | split; [exact Hv |]].
  exact (proj1 (C2_write_is_one_two_byte_message
                  Runs.good (mk_ts 3 3 0x38 0xff 0xff) 0x86 0x08 Ha Hv)).
Defined.

(** ** The shape of a run of [main] *)

Lemma main_request_trace e v :
  fst (main_request e v) =
  match check_request v with
  | Some msg => [EvStdout ("[main]: " ++ msg ++ nl)]
  | None =>
      if readaddr v >=? 0 then fst (main_read e (ts v) (readaddr v))
      else if writeaddr v >=? 0 then
        fst (main_write e (ts v) (writeaddr v) (writevalue v))
      else []
  end.
Proof.
  unfold main_request. destruct (check_request v); [reflexivity |].
  destruct (readaddr v >=? 0).
  - rewrite main_read_eq. cbn [IO.bind IO.ret fst]. apply app_nil_r.
  - destruct (writeaddr v >=? 0); reflexivity.
Qed.

Lemma check_request_rejections v msg :
  check_request v = Some msg -> In msg rejections.
Proof.
  unfold check_request, rejections.
  destruct ((writeaddr v >=? 0) && (readaddr v >=? 0));
    [ intros [= <-]; simpl; auto |].
  destruct ((writeaddr v <=? 0) && (writevalue v >=? 0));
    [ intros [= <-]; simpl; auto |].
  destruct ((writeaddr v >=? 0) && (writevalue v <=? 0));
    [ intros [= <-]; simpl; auto | discriminate ].
Qed.

(** A request passes the checks exactly when it names a read address and
    nothing else, or a positive write address with a positive value, or
    nothing at all. *)
Lemma check_request_passes v :
  check_request v = None <->
  (readaddr v >= 0 /\ writeaddr v < 0 /\ writevalue v < 0)
  \/ (readaddr v < 0 /\ writeaddr v > 0 /\ writevalue v > 0)
  \/ (readaddr v < 0 /\ writeaddr v < 0 /\ writevalue v < 0).
Proof.
  unfold check_request.
  destruct (Z.geb_spec (writeaddr v) 0), (Z.geb_spec (readaddr v) 0),
    (Z.leb_spec (writeaddr v) 0), (Z.geb_spec (writevalue v) 0),
    (Z.leb_spec (writevalue v) 0); cbn [andb];
    (split; [ try discriminate; intros _; lia
            | intros Hc; try reflexivity; exfalso; lia ]).
Qed.

(** The device node does not open: line 210 returns the result of
    [open]. *)
Lemma main_session_no_device e v :
  ~ opens e v ->
  main_session e v =
  ([ EvOpen (dev_path (ts v));
     EvStdout ("[main]: " ++ ("Couldn't open " ++ dev_path (ts v) ++ ": "
                                ++ os_strerror e) ++ nl) ],
   Returned (os_open e (dev_path (ts v)))).
Proof.
  unfold opens, main_session. intros Hopen.
  cbn [set_fd ts fd].
  destruct (Z.ltb_spec (os_open e (dev_path (ts v))) 0); [| lia].
  reflexivity.
Qed.

(** The bind fails: line 217 returns [-1]. *)
Lemma main_session_no_bind e v :
  opens e v -> ~ binds e v ->
  main_session e v =
  ([ EvOpen (dev_path (ts v));
     EvSlaveForce (os_open e (dev_path (ts v))) (addr (ts v));
     EvStdout ("[main]: " ++ ("Couldn't set slave addr: "
                                ++ os_strerror e) ++ nl) ],
   Returned (-1)).
Proof.
  unfold opens, binds, main_session.
  intros Hopen Hbind. cbn [set_fd ts fd addr].
  destruct (Z.ltb_spec (os_open e (dev_path (ts v))) 0); [lia |].
  destruct (Z.eqb_spec
              (os_slave_force e (os_open e (dev_path (ts v))) (addr (ts v)))
              0); [contradiction |].
  reflexivity.
Qed.

(** Device opened and bound: the request is served, the descriptor is
    closed and line 243 returns 0. *)
Lemma main_session_ready e v :
  opens e v -> binds e v ->
  let h := os_open e (dev_path (ts v)) in
  main_session e v =
  ([ EvOpen (dev_path (ts v)); EvSlaveForce h (addr (ts v)) ]
     ++ fst (main_request e (set_fd v h)) ++ [EvClose h],
   Returned 0)%list.
Proof.
  intros Hopen Hbind h. unfold opens, binds in Hopen, Hbind.
  fold h in Hopen, Hbind. unfold main_session.
  cbn [set_fd ts fd addr]. fold h.
  destruct (Z.ltb_spec h 0); [lia |].
  rewrite Hbind. cbn [Z.eqb negb].
  fold (set_fd v h).
  destruct (main_request e (set_fd v h)) as [tr []].
  reflexivity.
Qed.

Lemma opens_dec e v : opens e v \/ ~ opens e v.
Proof. unfold opens. lia. Qed.

Lemma binds_dec e v : binds e v \/ ~ binds e v.
Proof. unfold binds. lia. Qed.

(** Transfers of the request stage: none, or exactly one. *)
Lemma main_request_rdwr e v :
  rdwr_calls (fst (main_request e v)) = []
  \/ exists d, rdwr_calls (fst (main_request e v)) = [(fd (ts v), d)].
Proof.
  rewrite main_request_trace.
  destruct (check_request v); [left; reflexivity |].
  destruct (readaddr v >=? 0).
  - right. rewrite main_read_eq. cbn [fst].
    eexists. rewrite rdwr_calls_app. cbn [rdwr_calls flat_map app].
    match goal with |- context [flat_map _ (error_events ?f ?r)] =>
      destruct (error_events_quiet f r) as [Hq _] end.
    unfold rdwr_calls in Hq. rewrite Hq. reflexivity.
  - destruct (writeaddr v >=? 0); [| left; reflexivity].
    right. rewrite main_write_eq. cbn [fst].
    eexists. rewrite rdwr_calls_app. cbn [rdwr_calls flat_map app].
    match goal with |- context [flat_map _ (error_events ?f ?r)] =>
      destruct (error_events_quiet f r) as [Hq _] end.
    unfold rdwr_calls in Hq. rewrite Hq. reflexivity.
Qed.

Lemma main_request_no_close e v :
  close_calls (fst (main_request e v)) = [].
Proof.
  rewrite main_request_trace.
  destruct (check_request v); [reflexivity |].
  destruct (readaddr v >=? 0).
  - rewrite main_read_eq. cbn [fst]. rewrite close_calls_app.
    cbn [close_calls flat_map app].
    match goal with |- context [flat_map _ (error_events ?f ?r)] =>
      destruct (error_events_quiet f r) as [_ [Hq _]] end.
    unfold close_calls in Hq. rewrite Hq. reflexivity.
  - destruct (writeaddr v >=? 0); [| reflexivity].
    rewrite main_write_eq. cbn [fst]. rewrite close_calls_app.
    cbn [close_calls flat_map app].
    match goal with |- context [flat_map _ (error_events ?f ?r)] =>
      destruct (error_events_quiet f r) as [_ [Hq _]] end.
    unfold close_calls in Hq. rewrite Hq. reflexivity.
Qed.


(** ** Inversion of a run that reached the bus *)

Lemma in_error_events_rdwr func r h d :
  ~ In (EvRdwr h d) (error_events func r).
Proof.
  unfold error_events. destruct (r <? 0); simpl; [| tauto].
  intros [H | []]. discriminate.
Qed.

(** A transfer occurs in a run only after the arguments parsed, the device
    opened and bound, and the request passed the checks; the run then has
    one of two shapes, that of a read or that of a write. *)
Lemma main_transfer_inv strtol argv e h d :
  In (EvRdwr h d) (fst (main strtol argv e)) ->
  exists v func line,
    parse_args strtol (tl argv) main_init = Parsed v
    /\ opens e v /\ binds e v
    /\ h = os_open e (dev_path (ts v))
    /\ check_request v = None
    /\ main strtol argv e =
       ([ EvOpen (dev_path (ts v)); EvSlaveForce h (addr (ts v));
          EvRdwr h d ]
          ++ error_events func (fst (os_rdwr e h d))
          ++ [ EvStdout ("[main]: " ++ line ++ nl); EvClose h ],
        Returned 0)%list
    /\ ((readaddr v >= 0
         /\ func = "ft5x06_i2c_read"
         /\ d = read_request (ts v) (to_uint8 (readaddr v))
                  (of_byte (os_rbuf e))
         /\ line = fmt_02x (hd (of_byte (os_rbuf e))
                              (store_bytes 1 (snd (os_rdwr e h d))
                                 [of_byte (os_rbuf e)])) ++ nl)
        \/ (readaddr v < 0 /\ writeaddr v >= 0
            /\ func = "ft5x06_i2c_write"
            /\ d = write_request (ts v) (to_uint8 (writeaddr v))
                     (to_uint8 (writevalue v))
            /\ line = fmt_02x (writeaddr v) ++ " = "
                        ++ fmt_02x (writevalue v))).
Proof.
  unfold main.
  destruct (parse_args strtol (tl argv) main_init) as [v | |] eqn:Hparse.
  2: { cbn. intros [H | []]. discriminate. }
  2: { cbn. intros []. }
  destruct (opens_dec e v) as [Hopen | Hopen].
  2: { rewrite (main_session_no_device e v Hopen). cbn [fst].
       intros [H | [H | []]]; discriminate. }
  destruct (binds_dec e v) as [Hbind | Hbind].
  2: { rewrite (main_session_no_bind e v Hopen Hbind). cbn [fst].
       intros [H | [H | [H | []]]]; discriminate. }
  rewrite (main_session_ready e v Hopen Hbind). cbn [fst].
  set (h0 := os_open e (dev_path (ts v))).
  rewrite main_request_trace.
  change (check_request (set_fd v h0)) with (check_request v).
  change (readaddr (set_fd v h0)) with (readaddr v).
  change (writeaddr (set_fd v h0)) with (writeaddr v).
  change (writevalue (set_fd v h0)) with (writevalue v).
  destruct (check_request v) as [msg |] eqn:Hcheck.
  { cbn. intros [H | [H | [H | [H | []]]]]; discriminate. }
  destruct (Z.geb_spec (readaddr v) 0) as [Hr | Hr].
  - rewrite main_read_eq. cbn [fst].
    change (fd (ts (set_fd v h0))) with h0.
    change (read_request (ts (set_fd v h0)) (to_uint8 (readaddr v))
              (of_byte (os_rbuf e)))
      with (read_request (ts v) (to_uint8 (readaddr v))
              (of_byte (os_rbuf e))).
    set (data := read_request (ts v) (to_uint8 (readaddr v))
                   (of_byte (os_rbuf e))).
    intros Hin.
    assert (Heq : h = h0 /\ d = data).
    { cbn in Hin. destruct Hin as [H | [H | [H | H]]]; try discriminate.
      - injection H as <- <-. split; reflexivity.
      - apply in_app_or in H. destruct H as [H | H].
        + apply in_app_or in H. destruct H as [H | H].
          * exfalso. exact (in_error_events_rdwr _ _ _ _ H).
          * cbn in H. destruct H as [H | []]. discriminate.
        + cbn in H. destruct H as [H | []]. discriminate. }
    destruct Heq as [-> ->].
    exists v, "ft5x06_i2c_read". eexists.
    repeat (split; [first [reflexivity | assumption] |]).
    split.
    + cbn [app]. rewrite <- app_assoc. reflexivity.
    + left. repeat split; try reflexivity. lia.
  - destruct (Z.geb_spec (writeaddr v) 0) as [Hw | Hw].
    + rewrite main_write_eq. cbn [fst].
      change (fd (ts (set_fd v h0))) with h0.
      change (write_request (ts (set_fd v h0)) (to_uint8 (writeaddr v))
                (to_uint8 (writevalue v)))
        with (write_request (ts v) (to_uint8 (writeaddr v))
                (to_uint8 (writevalue v))).
      set (data := write_request (ts v) (to_uint8 (writeaddr v))
                     (to_uint8 (writevalue v))).
      intros Hin.
      assert (Heq : h = h0 /\ d = data).
      { cbn in Hin. destruct Hin as [H | [H | [H | H]]]; try discriminate.
        - injection H as <- <-. split; reflexivity.
        - apply in_app_or in H. destruct H as [H | H].
          + apply in_app_or in H. destruct H as [H | H].
            * exfalso. exact (in_error_events_rdwr _ _ _ _ H).
            * cbn in H. destruct H as [H | []]. discriminate.
          + cbn in H. destruct H as [H | []]. discriminate. }
      destruct Heq as [-> ->].
      exists v, "ft5x06_i2c_write". eexists.
      repeat (split; [first [reflexivity | assumption] |]).
      split.
      * cbn [app]. rewrite <- app_assoc. reflexivity.
      * right. repeat split; try reflexivity; lia.
    + cbn. intros [H | [H | [H | []]]]; discriminate.
Qed.

(** ** Release of the descriptor *)

(** Device opened and bound: [close] runs once, on the descriptor that
    [open] gave, whatever the request was and however the transfer went. *)
Lemma close_once_when_bound strtol argv v e :
  parse_args strtol (tl argv) main_init = Parsed v ->
  opens e v -> binds e v ->
  close_calls (fst (main strtol argv e)) = [os_open e (dev_path (ts v))].
Proof.
  intros Hparse Hopen Hbind. unfold main. rewrite Hparse.
  rewrite (main_session_ready e v Hopen Hbind). cbn [fst].
  rewrite !close_calls_app, main_request_no_close. reflexivity.
Qed.

(** C3.  The claim asks for one [close] on every path after a successful
    [open], the bind failure included.  On the bind failure [main] leaves
    through [return -1] (line 217) and not through the label [end]: the
    device was opened, no [close] runs. *)
Theorem C3_bind_failure_returns_without_close :
  forall (strtol : string -> Z -> Z) (argv : list string) (v : main_vars)
         (e : env),
    parse_args strtol (tl argv) main_init = Parsed v ->
    opens e v ->
    ~ binds e v ->
    In (EvOpen (dev_path (ts v))) (fst (main strtol argv e))
    /\ close_calls (fst (main strtol argv e)) = []
    /\ snd (main strtol argv e) = Returned (-1).
Proof.
  intros strtol argv v e Hparse Hopen Hbind. unfold main. rewrite Hparse.
  rewrite (main_session_no_bind e v Hopen Hbind). cbn [fst snd].
  split; [left; reflexivity | split; reflexivity].
Qed.

Lemma C3_bind_failure_returns_without_close_witness :
  let argv := ["ft5x06-register-tool"; "-r"; "0xa6"] in
  let v := set_readaddr main_init 0xa6 in
  parse_args C_strtol (tl argv) main_init = Parsed v
  /\ opens Runs.bind_refused v
  /\ ~ binds Runs.bind_refused v
  /\ close_calls (fst (main C_strtol argv Runs.bind_refused)) = []
  /\ snd (main C_strtol argv Runs.bind_refused) = Returned (-1).
Proof.
  intros argv v.
  assert (Hparse : parse_args C_strtol (tl argv) main_init = Parsed v)
    by reflexivity.
  assert (Hopen : opens Runs.bind_refused v) by (unfold opens; simpl; lia).
  assert (Hbind : ~ binds Runs.bind_refused v)
    by (unfold binds; simpl; lia).
  destruct (C3_bind_failure_returns_without_close
              C_strtol argv v Runs.bind_refused Hparse Hopen Hbind)
    as [_ [Hclose Hret]].
  repeat split; assumption.
Defined.

(** ** Validation of the request *)

(** C4.  The claim asks that a write address or a write value of 0 be
    accepted like any other byte.  The absence tests of lines 223 and 226
    are [<= 0] where the sentinel is [-1]: with address 0 the request is
    refused as if no address had been given, with value 0 as if no value
    had been given, and nothing is sent. *)
Theorem C4_zero_address_or_value_is_refused :
  let zero_address :=
    Runs.run ["ft5x06-register-tool"; "-w"; "0x00"; "-v"; "0x08"] Runs.good in
  let zero_value :=
    Runs.run ["ft5x06-register-tool"; "-w"; "0x86"; "-v"; "0x00"] Runs.good in
  rdwr_calls (fst zero_address) = []
  /\ stdout_lines (fst zero_address)
     = ["[main]: Didn't receive write address" ++ nl]
  /\ rdwr_calls (fst zero_value) = []
  /\ stdout_lines (fst zero_value)
     = ["[main]: Didn't receive write value" ++ nl].
Proof. vm_compute. repeat split. Qed.

(** With the device bound and no read address, the write is sent exactly
    when address and value are both positive. *)
Lemma write_sent_iff_positive strtol argv v e :
  parse_args strtol (tl argv) main_init = Parsed v ->
  opens e v -> binds e v ->
  readaddr v < 0 ->
  (rdwr_calls (fst (main strtol argv e)) <> []
   <-> writeaddr v > 0 /\ writevalue v > 0).
Proof.
  intros Hparse Hopen Hbind Hr. unfold main. rewrite Hparse.
  rewrite (main_session_ready e v Hopen Hbind). cbn [fst].
  set (h := os_open e (dev_path (ts v))).
  rewrite !rdwr_calls_app. cbn [rdwr_calls flat_map app].
  rewrite app_nil_r. fold (rdwr_calls (fst (main_request e (set_fd v h)))).
  rewrite main_request_trace.
  change (check_request (set_fd v h)) with (check_request v).
  change (readaddr (set_fd v h)) with (readaddr v).
  change (writeaddr (set_fd v h)) with (writeaddr v).
  change (writevalue (set_fd v h)) with (writevalue v).
  destruct (check_request v) as [msg |] eqn:Hcheck.
  - split; [intros Hne; exfalso; apply Hne; reflexivity |].
    intros Hpos.
    assert (Hnone : check_request v = None)
      by (apply check_request_passes; lia).
    congruence.
  - apply check_request_passes in Hcheck.
    destruct (Z.geb_spec (readaddr v) 0); [lia |].
    destruct (Z.geb_spec (writeaddr v) 0).
    + rewrite main_write_eq. cbn [fst rdwr_calls flat_map app].
      split; [lia | discriminate].
    + split; [intros Hne; exfalso; apply Hne; reflexivity | lia].
Qed.

(** C5.  When the parsed arguments hold a read address together with a
    write address, or a write address and no value, or a value and no write
    address, no run submits a transfer.  When in addition the device opened
    and bound, the run is: open, bind, one logged rejection, [close]; it
    returns 0.  (An argument counts as given when the stored [int] is not
    negative, which is what the program tests.) *)
Theorem C5_invalid_request_is_rejected :
  forall (strtol : string -> Z -> Z) (argv : list string) (v : main_vars)
         (e : env),
    parse_args strtol (tl argv) main_init = Parsed v ->
    (readaddr v >= 0 /\ writeaddr v >= 0)
    \/ (writeaddr v >= 0 /\ writevalue v < 0)
    \/ (writevalue v >= 0 /\ writeaddr v < 0) ->
    rdwr_calls (fst (main strtol argv e)) = []
    /\ (opens e v -> binds e v ->
        exists msg,
          In msg rejections
          /\ fst (main strtol argv e) =
             [ EvOpen (dev_path (ts v));
               EvSlaveForce (os_open e (dev_path (ts v))) (addr (ts v));
               EvStdout ("[main]: " ++ msg ++ nl);
               EvClose (os_open e (dev_path (ts v))) ]
          /\ snd (main strtol argv e) = Returned 0).
Proof.
  intros strtol argv v e Hparse Hbad.
  assert (Hcheck : exists msg, check_request v = Some msg).
  { destruct (check_request v) as [msg |] eqn:Hc; [eauto |].
    apply check_request_passes in Hc. lia. }
  destruct Hcheck as [msg Hcheck].
  assert (Hready : opens e v -> binds e v ->
            main strtol argv e =
            ([ EvOpen (dev_path (ts v));
               EvSlaveForce (os_open e (dev_path (ts v))) (addr (ts v));
               EvStdout ("[main]: " ++ msg ++ nl);
               EvClose (os_open e (dev_path (ts v))) ], Returned 0)).
  { intros Hopen Hbind. unfold main. rewrite Hparse.
    rewrite (main_session_ready e v Hopen Hbind).
    rewrite main_request_trace.
    change (check_request (set_fd v (os_open e (dev_path (ts v)))))
      with (check_request v).
    rewrite Hcheck. reflexivity. }
  split.
  - destruct (opens_dec e v) as [Hopen | Hopen].
    + destruct (binds_dec e v) as [Hbind | Hbind].
      * rewrite (Hready Hopen Hbind). reflexivity.
      * unfold main. rewrite Hparse.
        rewrite (main_session_no_bind e v Hopen Hbind). reflexivity.
    + unfold main. rewrite Hparse.
      rewrite (main_session_no_device e v Hopen). reflexivity.
  - intros Hopen Hbind. exists msg. rewrite (Hready Hopen Hbind).
    split; [exact (check_request_rejections v msg Hcheck) |].
    split; reflexivity.
Qed.

Lemma C5_invalid_request_is_rejected_witness :
  let argv :=
    ["ft5x06-register-tool"; "-r"; "0xa6"; "-w"; "0x86"; "-v"; "0x08"] in
  let v := mk_vars (mk_ts (-1) 3 0x38 0xff 0xff) 0xa6 0x86 0x08 in
  parse_args C_strtol (tl argv) main_init = Parsed v
  /\ (readaddr v >= 0 /\ writeaddr v >= 0)
  /\ opens Runs.good v /\ binds Runs.good v
  /\ rdwr_calls (fst (main C_strtol argv Runs.good)) = []
  /\ exists msg,
       In msg rejections
       /\ fst (main C_strtol argv Runs.good) =
          [ EvOpen "/dev/i2c-3"; EvSlaveForce 3 0x38;
            EvStdout ("[main]: " ++ msg ++ nl); EvClose 3 ]
       /\ snd (main C_strtol argv Runs.good) = Returned 0.
Proof.
  intros argv v.
  assert (Hparse : parse_args C_strtol (tl argv) main_init = Parsed v)
    by reflexivity.
  assert (Hboth : readaddr v >= 0 /\ writeaddr v >= 0) by (simpl; lia).
  assert (Hopen : opens Runs.good v) by (unfold opens; simpl; lia).
  assert (Hbind : binds Runs.good v) by reflexivity.
  destruct (C5_invalid_request_is_rejected
              C_strtol argv v Runs.good Hparse (or_introl Hboth))
    as [Hnone Hrun].
  repeat (split; [assumption |]).
  exact (Hrun Hopen Hbind).
Defined.

(** ** A transfer that fails *)

Lemma error_events_failed func r :
  r < 0 -> error_events func r = [EvStderr (error_line func r)].
Proof.
  intros Hr. unfold error_events.
  destruct (Z.ltb_spec r 0); [reflexivity | lia].
Qed.

(** C6.  In every run in which a transfer is submitted and reports a
    negative result, the error line with that number is written once to
    [stderr], right after the transfer; the transfer is not repeated; the
    run goes on to the log line of [main] and ends with the one [close] of
    the descriptor; [main] returns 0. *)
Theorem C6_failed_transfer_is_not_fatal :
  forall (strtol : string -> Z -> Z) (argv : list string) (e : env)
         (h : Z) (d : i2c_rdwr_ioctl_data),
    In (EvRdwr h d) (fst (main strtol argv e)) ->
    fst (os_rdwr e h d) < 0 ->
    exists func before after,
      fst (main strtol argv e) =
        (before
           ++ [ EvRdwr h d; EvStderr (error_line func (fst (os_rdwr e h d))) ]
           ++ after ++ [EvClose h])%list
      /\ stderr_lines (fst (main strtol argv e))
         = [error_line func (fst (os_rdwr e h d))]
      /\ rdwr_calls (fst (main strtol argv e)) = [(h, d)]
      /\ close_calls (fst (main strtol argv e)) = [h]
      /\ snd (main strtol argv e) = Returned 0.
Proof.
  intros strtol argv e h d Hin Hneg.
  destruct (main_transfer_inv strtol argv e h d Hin)
    as (v & func & line & _ & _ & _ & _ & _ & Hrun & _).
  rewrite Hrun, (error_events_failed func _ Hneg). cbn [fst snd].
  exists func, [EvOpen (dev_path (ts v)); EvSlaveForce h (addr (ts v))],
    [EvStdout ("[main]: " ++ line ++ nl)].
  repeat split.
Qed.

Lemma C6_failed_transfer_is_not_fatal_witness :
  let argv := ["ft5x06-register-tool"; "-r"; "0xa6"] in
  let d := read_request (mk_ts 3 3 0x38 0xff 0xff) 0xa6 0x5a in
  In (EvRdwr 3 d) (fst (main C_strtol argv Runs.silent_bus))
  /\ fst (os_rdwr Runs.silent_bus 3 d) < 0
  /\ stderr_lines (fst (main C_strtol argv Runs.silent_bus))
     = ["[ft5x06_i2c_read]: Error -1" ++ nl]
  /\ close_calls (fst (main C_strtol argv Runs.silent_bus)) = [3]
  /\ snd (main C_strtol argv Runs.silent_bus) = Returned 0.
Proof.
  intros argv d.
  assert (Hin : In (EvRdwr 3 d) (fst (main C_strtol argv Runs.silent_bus)))
    by (vm_compute; auto).
  assert (Hneg : fst (os_rdwr Runs.silent_bus 3 d) < 0) by (simpl; lia).
  destruct (C6_failed_transfer_is_not_fatal
              C_strtol argv Runs.silent_bus 3 d Hin Hneg)
    as (func & before & after & _ & _ & _ & Hclose & Hret).
  repeat (split; [first [assumption | reflexivity] |]).
  exact Hret.
Defined.

(** ** Exit code *)

(** C7.  When all arguments are recognised and the loop runs to the end of
    [argv], [main] returns; the value returned is 0 exactly when the device
    node opened and the bind succeeded, whatever the request and the result
    of the transfer.  When [open] fails with [-1] or the bind fails, the
    status the parent sees is 255. *)
Theorem C7_exit_code :
  forall (strtol : string -> Z -> Z) (argv : list string) (v : main_vars)
         (e : env),
    parse_args strtol (tl argv) main_init = Parsed v ->
    exists code,
      snd (main strtol argv e) = Returned code
      /\ (opens e v /\ binds e v -> code = 0)
      /\ (~ (opens e v /\ binds e v) -> code <> 0)
      /\ (os_open e (dev_path (ts v)) = -1 \/ (opens e v /\ ~ binds e v) ->
          exit_status code = 255).
Proof.
  intros strtol argv v e Hparse. unfold main. rewrite Hparse.
  destruct (opens_dec e v) as [Hopen | Hopen].
  - destruct (binds_dec e v) as [Hbind | Hbind].
    + rewrite (main_session_ready e v Hopen Hbind). exists 0.
      cbn [snd]. unfold opens in *.
      split; [reflexivity | split; [reflexivity | split; [tauto |]]].
      intros [Hfail | [_ Hno]]; [lia | contradiction].
    + rewrite (main_session_no_bind e v Hopen Hbind). exists (-1).
      cbn [snd].
      split; [reflexivity | split; [tauto | split; [lia | reflexivity]]].
  - rewrite (main_session_no_device e v Hopen).
    exists (os_open e (dev_path (ts v))).
    cbn [snd]. unfold opens in *.
    split; [reflexivity | split; [tauto | split; [lia |]]].
    intros [-> | [Hyes _]]; [reflexivity | contradiction].
Qed.

Lemma C7_exit_code_witness :
  let argv := ["ft5x06-register-tool"; "-w"; "0x86"] in
  let v := set_writeaddr main_init 0x86 in
  parse_args C_strtol (tl argv) main_init = Parsed v
  /\ snd (main C_strtol argv Runs.good) = Returned 0
  /\ snd (main C_strtol argv Runs.no_device) = Returned (-1)
  /\ snd (main C_strtol argv Runs.bind_refused) = Returned (-1).
Proof.
  intros argv v.
  assert (Hparse : parse_args C_strtol (tl argv) main_init = Parsed v)
    by reflexivity.
  split; [exact Hparse |].
  destruct (C7_exit_code C_strtol argv v Runs.good Hparse)
    as (code & Hret & Hzero & _ & _).
  split; [| split; reflexivity].
  rewrite Hret. f_equal. apply Hzero.
  split; [unfold opens; simpl; lia | reflexivity].
Defined.

(** ** Number of transfers *)

(** C8.  No run of [main] submits more than one [I2C_RDWR] request,
    whatever the command line and whatever the system answers. *)
Theorem C8_at_most_one_transfer :
  forall (strtol : string -> Z -> Z) (argv : list string) (e : env),
    (List.length (rdwr_calls (fst (main strtol argv e))) <= 1)%nat.
Proof.
  intros strtol argv e. unfold main.
  destruct (parse_args strtol (tl argv) main_init) as [v | |].
  - destruct (opens_dec e v) as [Hopen | Hopen].
    + destruct (binds_dec e v) as [Hbind | Hbind].
      * rewrite (main_session_ready e v Hopen Hbind). cbn [fst].
        rewrite !rdwr_calls_app.
        destruct (main_request_rdwr e
                    (set_fd v (os_open e (dev_path (ts v)))))
          as [Hnone | [d Hone]].
        -- rewrite Hnone. cbn. lia.
        -- rewrite Hone. cbn. lia.
      * rewrite (main_session_no_bind e v Hopen Hbind). cbn. lia.
    + rewrite (main_session_no_device e v Hopen). cbn. lia.
  - cbn. lia.
  - cbn. lia.
Qed.

(** ** Facts about the printf conversions *)

Lemma string_app_assoc (a b c : string) : (a ++ b) ++ c = a ++ b ++ c.
Proof. induction a as [| ch a IH]; simpl; [| rewrite IH]; reflexivity. Qed.

Lemma of_byte_range b : 0 <= of_byte b <= 255.
Proof.
  unfold of_byte. pose proof (Byte.to_N_bounded b) as Hb. lia.
Qed.

(** [%02x] of a byte is its two hexadecimal digits. *)
Lemma fmt_02x_byte n : 0 <= n <= 255 -> fmt_02x n = two_digit_hex n.
Proof.
  intros Hn.
  assert (Hall : forallb
                   (fun k => String.eqb (fmt_02x (Z.of_nat k))
                                        (two_digit_hex (Z.of_nat k)))
                   (seq 0 256) = true) by (vm_compute; reflexivity).
  rewrite forallb_forall in Hall.
  specialize (Hall (Z.to_nat n)). rewrite Z2Nat.id in Hall by lia.
  apply String.eqb_eq, Hall, in_seq. lia.
Qed.




Lemma to_int_is_int z : is_int (to_int z).
Proof.
  unfold is_int, to_int, INT_MAX.
  pose proof (Z.mod_pos_bound (z + 2 ^ 31) (2 ^ 32) ltac:(lia)). lia.
Qed.

#[local] Hint Resolve to_int_is_int : ints.



(** ** What is printed *)

(** C9.  In a run that submitted a transfer: if it was a read that
    succeeded and the driver stored byte [b], [main] prints [b] with exactly
    two hexadecimal digits (after the [[main]: ] prefix of [LOG], and
    followed by two newlines); if it was a write of an address and a value
    in [0,255], [main] prints the line [address = value], each field with
    exactly two hexadecimal digits. *)
Theorem C9_printed_output :
  forall (strtol : string -> Z -> Z) (argv : list string) (v : main_vars)
         (e : env) (h : Z) (d : i2c_rdwr_ioctl_data),
    parse_args strtol (tl argv) main_init = Parsed v ->
    In (EvRdwr h d) (fst (main strtol argv e)) ->
    (forall b rest,
        readaddr v >= 0 ->
        0 <= fst (os_rdwr e h d) ->
        snd (os_rdwr e h d) = b :: rest ->
        stdout_lines (fst (main strtol argv e))
        = ["[main]: " ++ two_digit_hex (of_byte b) ++ nl ++ nl])
    /\ (readaddr v < 0 ->
        0 <= writeaddr v <= 255 ->
        0 <= writevalue v <= 255 ->
        stdout_lines (fst (main strtol argv e))
        = ["[main]: " ++ two_digit_hex (writeaddr v) ++ " = "
             ++ two_digit_hex (writevalue v) ++ nl]).
Proof.
  intros strtol argv v e h d Hparse Hin.
  destruct (main_transfer_inv strtol argv e h d Hin)
    as (v' & func & line & Hparse' & _ & _ & _ & _ & Hrun & Hkind).
  assert (v' = v) by congruence. subst v'.
  assert (Hout : stdout_lines (fst (main strtol argv e))
                 = ["[main]: " ++ line ++ nl]).
  { rewrite Hrun. cbn [fst]. rewrite !stdout_lines_app.
    destruct (error_events_quiet func (fst (os_rdwr e h d)))
      as (_ & _ & Hq).
    rewrite Hq. reflexivity. }
  rewrite Hout. split.
  - intros b rest Hr Hok Hb.
    destruct Hkind as [(_ & _ & _ & ->) | (Hneg & _)]; [| lia].
    rewrite Hb. cbn [store_bytes hd].
    rewrite (fmt_02x_byte _ (of_byte_range b)).
    rewrite string_app_assoc. reflexivity.
  - intros Hr Ha Hv.
    destruct Hkind as [(Hpos & _) | (_ & _ & _ & _ & ->)]; [lia |].
    rewrite (fmt_02x_byte _ Ha), (fmt_02x_byte _ Hv).
    rewrite !string_app_assoc. reflexivity.
Qed.

Lemma C9_printed_output_witness :
  let read_argv := ["ft5x06-register-tool"; "-r"; "0xa6"] in
  let write_argv := ["ft5x06-register-tool"; "-w"; "0x86"; "-v"; "0x08"] in
  stdout_lines (fst (main C_strtol read_argv Runs.good))
  = ["[main]: 12" ++ nl ++ nl]
  /\ stdout_lines (fst (main C_strtol write_argv Runs.good))
     = ["[main]: 86 = 08" ++ nl].
Proof.
  intros read_argv write_argv. split.
  - set (v := set_readaddr main_init 0xa6).
    set (d := read_request (mk_ts 3 3 0x38 0xff 0xff) 0xa6 0).
    assert (Hparse : parse_args C_strtol (tl read_argv) main_init = Parsed v)
      by reflexivity.
    assert (Hin : In (EvRdwr 3 d) (fst (main C_strtol read_argv Runs.good)))
      by (vm_compute; auto).
    assert (Hr : readaddr v >= 0) by (simpl; lia).
    assert (Hok : 0 <= fst (os_rdwr Runs.good 3 d)) by (simpl; lia).
    exact (proj1 (C9_printed_output C_strtol read_argv v Runs.good 3 d
                    Hparse Hin) x12%byte [] Hr Hok eq_refl).
  - set (v := mk_vars (mk_ts (-1) 3 0x38 0xff 0xff) (-1) 0x86 0x08).
    set (d := write_request (mk_ts 3 3 0x38 0xff 0xff) 0x86 0x08).
    assert (Hparse : parse_args C_strtol (tl write_argv) main_init = Parsed v)
      by reflexivity.
    assert (Hin : In (EvRdwr 3 d) (fst (main C_strtol write_argv Runs.good)))
      by (vm_compute; auto).
    assert (Hr : readaddr v < 0) by (simpl; lia).
    assert (Ha : 0 <= writeaddr v <= 255) by (simpl; lia).
    assert (Hv : 0 <= writevalue v <= 255) by (simpl; lia).
    exact (proj2 (C9_printed_output C_strtol write_argv v Runs.good 3 d
                    Hparse Hin) Hr Ha Hv).
Defined.




(** * Further properties of the code *)

(** ** The transfer functions on their own *)

(** X1.  [ft5x06_i2c_read] called with nothing to write (the [uint16_t]
    [wrlen] is 0, the [else] branch of line 114) submits one request that
    holds the read message alone, its length the [uint16_t] value of
    [rdlen].  It returns the result of the call with the buffer as the
    driver left it, and writes its error line exactly when the result is
    negative. *)
Theorem X1_i2c_read_without_write_part :
  forall (e : env) (t : ft5x06_ts) (wrbuf : list Z) (wrlen : Z)
         (rdbuf : list Z) (rdlen : Z),
    to_uint16 wrlen = 0 ->
    let data :=
      mk_data [ mk_msg (addr t) I2C_M_RD (to_uint16 rdlen) rdbuf ] 1 in
    let run := ft5x06_i2c_read e t wrbuf wrlen rdbuf rdlen in
    rdwr_calls (fst run) = [(fd t, data)]
    /\ snd run = (fst (os_rdwr e (fd t) data),
                  store_bytes (Z.to_nat (to_uint16 rdlen))
                    (snd (os_rdwr e (fd t) data)) rdbuf)
    /\ stderr_lines (fst run)
       = (if fst (os_rdwr e (fd t) data) <? 0
          then [error_line "ft5x06_i2c_read" (fst (os_rdwr e (fd t) data))]
          else [])
    /\ stdout_lines (fst run) = [].
Proof.
  intros e t wrbuf wrlen rdbuf rdlen Hlen data run. subst run.
  rewrite ft5x06_i2c_read_eq, Hlen.
  change (0 >? 0) with false. cbv iota. fold data. cbn [fst snd].
  unfold error_events.
  destruct (fst (os_rdwr e (fd t) data) <? 0); repeat split.
Qed.

Lemma X1_i2c_read_without_write_part_witness :
  let t := mk_ts 3 3 0x38 0xff 0xff in
  to_uint16 65536 = 0
  /\ rdwr_calls (fst (ft5x06_i2c_read Runs.good t [7] 65536 [0; 0] 2))
     = [(3, mk_data [ mk_msg 0x38 1 2 [0; 0] ] 1)]
  /\ snd (ft5x06_i2c_read Runs.good t [7] 65536 [0; 0] 2) = (1, [0x12; 0]).
Proof.
  intros t.
  assert (Hlen : to_uint16 65536 = 0) by reflexivity.
  destruct (X1_i2c_read_without_write_part
              Runs.good t [7] 65536 [0; 0] 2 Hlen)
    as (Hcalls & Hres & _).
  split; [exact Hlen | split; [exact Hcalls | exact Hres]].
Defined.

(** X2.  [ft5x06_i2c_write] submits one request with one write message for
    every buffer and every length, the empty one included; the length of
    the message is the [uint16_t] value of [len].  It returns the result of
    the call, prints nothing on [stdout], and writes its error line exactly
    when the result is negative. *)
Theorem X2_i2c_write_reports_failure :
  forall (e : env) (t : ft5x06_ts) (buf : list Z) (len : Z),
    let data := mk_data [ mk_msg (addr t) 0 (to_uint16 len) buf ] 1 in
    let run := ft5x06_i2c_write e t buf len in
    rdwr_calls (fst run) = [(fd t, data)]
    /\ snd run = fst (os_rdwr e (fd t) data)
    /\ stderr_lines (fst run)
       = (if snd run <? 0 then [error_line "ft5x06_i2c_write" (snd run)]
          else [])
    /\ stdout_lines (fst run) = [].
Proof.
  intros e t buf len data run. subst run.
  rewrite ft5x06_i2c_write_eq. fold data. cbn [fst snd].
  unfold error_events.
  destruct (fst (os_rdwr e (fd t) data) <? 0); repeat split.
Qed.

(** ** The argument loop *)

Lemma is_option_cases a :
  is_option a = false ->
  is_opt a "-a" "--address" = false /\ is_opt a "-b" "--bus" = false
  /\ is_opt a "-r" "--read" = false /\ is_opt a "-w" "--write" = false
  /\ is_opt a "-v" "--value" = false.
Proof.
  unfold is_option. intros H.
  do 4 (apply orb_false_elim in H; destruct H as [H ?]).
  repeat split; assumption.
Qed.

Lemma parse_args_unknown strtol a rest v :
  is_option a = false -> parse_args strtol (a :: rest) v = Help.
Proof.
  intros H. destruct (is_option_cases a H) as (Ha & Hb & Hr & Hw & Hv).
  cbn [parse_args]. rewrite Ha, Hb, Hr, Hw, Hv. reflexivity.
Qed.

Lemma parse_args_dangling strtol a v :
  is_option a = true -> parse_args strtol [a] v = NullArg.
Proof.
  unfold is_option. intros H. cbn [parse_args].
  destruct (is_opt a "-a" "--address"); [reflexivity |].
  destruct (is_opt a "-b" "--bus"); [reflexivity |].
  destruct (is_opt a "-r" "--read"); [reflexivity |].
  destruct (is_opt a "-w" "--write"); [reflexivity |].
  destruct (is_opt a "-v" "--value"); [reflexivity | discriminate].
Qed.

(** A complete first part of the command line can be parsed on its own. *)
Lemma parse_args_app strtol (n : nat) :
  forall pre post v0 v1,
    (List.length pre <= n)%nat ->
    parse_args strtol pre v0 = Parsed v1 ->
    parse_args strtol (pre ++ post) v0 = parse_args strtol post v1.
Proof.
  induction n as [| n IH]; intros pre post v0 v1 Hlen Hparse.
  - destruct pre; [| simpl in Hlen; lia].
    simpl in Hparse. injection Hparse as ->. reflexivity.
  - destruct pre as [| a rest].
    { simpl in Hparse. injection Hparse as ->. reflexivity. }
    cbn [parse_args] in Hparse.
    change ((a :: rest) ++ post)%list with (a :: (rest ++ post))%list.
    cbn [parse_args].
    destruct (is_opt a "-a" "--address").
    { destruct rest as [| s rest']; [discriminate |].
      cbn [app]. apply IH; [simpl in Hlen; lia | exact Hparse]. }
    destruct (is_opt a "-b" "--bus").
    { destruct rest as [| s rest']; [discriminate |].
      cbn [app]. apply IH; [simpl in Hlen; lia | exact Hparse]. }
    destruct (is_opt a "-r" "--read").
    { destruct rest as [| s rest']; [discriminate |].
      cbn [app]. apply IH; [simpl in Hlen; lia | exact Hparse]. }
    destruct (is_opt a "-w" "--write").
    { destruct rest as [| s rest']; [discriminate |].
      cbn [app]. apply IH; [simpl in Hlen; lia | exact Hparse]. }
    destruct (is_opt a "-v" "--value").
    { destruct rest as [| s rest']; [discriminate |].
      cbn [app]. apply IH; [simpl in Hlen; lia | exact Hparse]. }
    discriminate.
Qed.

(** X3.  When an argument that is no option stands where the loop expects
    one (after any number of complete option-value pairs), [main] prints
    the usage text under the name [argv[0]] and ends through [exit(1)]:
    whatever follows on the command line is not looked at and no system
    call on the device is made.  [-h] and [--help] are such arguments. *)
Theorem X3_unknown_argument_prints_help :
  forall (strtol : string -> Z -> Z) (prog : string)
         (pre post : list string) (x : string) (v1 : main_vars) (e : env),
    parse_args strtol pre main_init = Parsed v1 ->
    is_option x = false ->
    main strtol (prog :: pre ++ x :: post) e
    = (fst (show_help prog), Exited 1)
    /\ is_option "-h" = false /\ is_option "--help" = false.
Proof.
  intros strtol prog pre post x v1 e Hpre Hx.
  split; [| split; reflexivity].
  unfold main. cbn [tl hd].
  rewrite (parse_args_app strtol (List.length pre) pre (x :: post)
             main_init v1 (le_n _) Hpre).
  rewrite (parse_args_unknown strtol x post v1 Hx). reflexivity.
Qed.

Lemma X3_unknown_argument_prints_help_witness :
  let pre := ["-r"; "0xa6"] in
  parse_args C_strtol pre main_init = Parsed (set_readaddr main_init 0xa6)
  /\ is_option "-h" = false
  /\ main C_strtol ("ft5x06-register-tool" :: pre ++ "-h" :: ["-w"])
       Runs.good
     = (fst (show_help "ft5x06-register-tool"), Exited 1).
Proof.
  intros pre.
  assert (Hpre : parse_args C_strtol pre main_init
                 = Parsed (set_readaddr main_init 0xa6)) by reflexivity.
  assert (Hx : is_option "-h" = false) by reflexivity.
  split; [exact Hpre | split; [exact Hx |]].
  exact (proj1 (X3_unknown_argument_prints_help
                  C_strtol "ft5x06-register-tool" pre ["-w"] "-h"
                  (set_readaddr main_init 0xa6) Runs.good Hpre Hx)).
Defined.

(** X4.  When the last argument is an option, its value is [argv[argc]],
    the null pointer, and the loop hands it to [strtol]: the run has no
    defined behaviour, and nothing was opened or printed before. *)
Theorem X4_option_without_value_is_undefined :
  forall (strtol : string -> Z -> Z) (prog : string) (pre : list string)
         (x : string) (v1 : main_vars) (e : env),
    parse_args strtol pre main_init = Parsed v1 ->
    is_option x = true ->
    main strtol (prog :: pre ++ [x]) e = ([], Undefined).
Proof.
  intros strtol prog pre x v1 e Hpre Hx.
  unfold main. cbn [tl hd].
  rewrite (parse_args_app strtol (List.length pre) pre [x]
             main_init v1 (le_n _) Hpre).
  rewrite (parse_args_dangling strtol x v1 Hx). reflexivity.
Qed.

Lemma X4_option_without_value_is_undefined_witness :
  let pre := ["-w"; "0x86"] in
  parse_args C_strtol pre main_init = Parsed (set_writeaddr main_init 0x86)
  /\ is_option "--value" = true
  /\ main C_strtol ("ft5x06-register-tool" :: pre ++ ["--value"]) Runs.good
     = ([], Undefined).
Proof.
  intros pre.
  assert (Hpre : parse_args C_strtol pre main_init
                 = Parsed (set_writeaddr main_init 0x86)) by reflexivity.
  assert (Hx : is_option "--value" = true) by reflexivity.
  split; [exact Hpre | split; [exact Hx |]].
  exact (X4_option_without_value_is_undefined
           C_strtol "ft5x06-register-tool" pre "--value"
           (set_writeaddr main_init 0x86) Runs.good Hpre Hx).
Defined.

(** X5.  The loop works from left to right without looking back: when a
    first part of the arguments is parsed to the end, parsing the whole
    line is parsing the rest from the variables the first part left. *)
Theorem X5_parse_args_composes :
  forall (strtol : string -> Z -> Z) (pre post : list string)
         (v0 v1 : main_vars),
    parse_args strtol pre v0 = Parsed v1 ->
    parse_args strtol (pre ++ post) v0 = parse_args strtol post v1.
Proof.
  intros strtol pre post v0 v1 Hpre.
  exact (parse_args_app strtol (List.length pre) pre post v0 v1
           (le_n _) Hpre).
Qed.

Lemma X5_parse_args_composes_witness :
  let pre := ["-b"; "1"; "-a"; "39"] in
  let v1 := mk_vars (mk_ts (-1) 1 0x39 0xff 0xff) (-1) (-1) (-1) in
  parse_args C_strtol pre main_init = Parsed v1
  /\ parse_args C_strtol (pre ++ ["-r"; "0xa6"]) main_init
     = parse_args C_strtol ["-r"; "0xa6"] v1.
Proof.
  intros pre v1.
  assert (Hpre : parse_args C_strtol pre main_init = Parsed v1)
    by reflexivity.
  split; [exact Hpre |].
  exact (X5_parse_args_composes C_strtol pre ["-r"; "0xa6"] main_init v1
           Hpre).
Defined.

Lemma parse_args_step strtol a s rest v :
  is_option a = true ->
  parse_args strtol (a :: s :: rest) v
  = parse_args strtol rest (assign strtol a s v).
Proof.
  unfold is_option, assign. intros H. cbn [parse_args].
  destruct (is_opt a "-a" "--address"); [reflexivity |].
  destruct (is_opt a "-b" "--bus"); [reflexivity |].
  destruct (is_opt a "-r" "--read"); [reflexivity |].
  destruct (is_opt a "-w" "--write"); [reflexivity |].
  destruct (is_opt a "-v" "--value"); [reflexivity | discriminate].
Qed.

(** Induction over the pairs of a command line that parses. *)
Lemma parse_args_pairs_ind strtol
  (P : list string -> main_vars -> main_vars -> Prop) :
  (forall v, P [] v v) ->
  (forall a s rest v0 v,
      is_option a = true ->
      parse_args strtol rest (assign strtol a s v0) = Parsed v ->
      P rest (assign strtol a s v0) v ->
      P (a :: s :: rest) v0 v) ->
  forall args v0 v, parse_args strtol args v0 = Parsed v -> P args v0 v.
Proof.
  intros Hnil Hpair args.
  assert (Hall : forall n args v0 v,
             (List.length args <= n)%nat ->
             parse_args strtol args v0 = Parsed v -> P args v0 v).
  { induction n as [| n IH]; intros l v0 v Hlen Hparse.
    - destruct l; [| simpl in Hlen; lia].
      simpl in Hparse. injection Hparse as ->. apply Hnil.
    - destruct l as [| a rest].
      { simpl in Hparse. injection Hparse as ->. apply Hnil. }
      destruct (is_option a) eqn:Hopt.
      + destruct rest as [| s rest'].
        { rewrite (parse_args_dangling strtol a v0 Hopt) in Hparse.
          discriminate. }
        rewrite (parse_args_step strtol a s rest' v0 Hopt) in Hparse.
        apply Hpair; [exact Hopt | exact Hparse |].
        apply IH; [simpl in Hlen; lia | exact Hparse].
      + rewrite (parse_args_unknown strtol a rest v0 Hopt) in Hparse.
        discriminate. }
  intros v0 v. apply (Hall (List.length args)). lia.
Qed.

(** X6.  An option given again overrides what was given before: after any
    complete first part, a trailing [-r s] leaves [readaddr] at the [int]
    of [strtol(s, 16)], and likewise for [-w], [-v], [-a] (a [uint8_t],
    base 16) and [-b] (a [uint8_t], base 10); the other variables keep
    what the first part left. *)
Theorem X6_last_occurrence_wins :
  forall (strtol : string -> Z -> Z) (pre : list string) (s : string)
         (v0 v1 : main_vars),
    parse_args strtol pre v0 = Parsed v1 ->
    parse_args strtol (pre ++ ["-r"; s]) v0
    = Parsed (set_readaddr v1 (to_int (strtol s 16)))
    /\ parse_args strtol (pre ++ ["-w"; s]) v0
       = Parsed (set_writeaddr v1 (to_int (strtol s 16)))
    /\ parse_args strtol (pre ++ ["-v"; s]) v0
       = Parsed (set_writevalue v1 (to_int (strtol s 16)))
    /\ parse_args strtol (pre ++ ["-a"; s]) v0
       = Parsed (set_addr v1 (to_uint8 (strtol s 16)))
    /\ parse_args strtol (pre ++ ["-b"; s]) v0
       = Parsed (set_bus v1 (to_uint8 (strtol s 10))).
Proof.
  intros strtol pre s v0 v1 Hpre.
  pose proof (fun post =>
                parse_args_app strtol (List.length pre) pre post v0 v1
                  (le_n _) Hpre) as Happ.
  rewrite !Happ. repeat split.
Qed.

Lemma X6_last_occurrence_wins_witness :
  let pre := ["-r"; "0x10"; "--read"; "0x20"] in
  parse_args C_strtol pre main_init = Parsed (set_readaddr main_init 0x20)
  /\ parse_args C_strtol (pre ++ ["-r"; "0xa6"]) main_init
     = Parsed (set_readaddr main_init 0xa6).
Proof.
  intros pre.
  assert (Hpre : parse_args C_strtol pre main_init
                 = Parsed (set_readaddr main_init 0x20)) by reflexivity.
  split; [exact Hpre |].
  exact (proj1 (X6_last_occurrence_wins C_strtol pre "0xa6" main_init
                  (set_readaddr main_init 0x20) Hpre)).
Defined.

(** X7.  A command line that the loop parses to the end consists of
    option-value pairs: the number of arguments after [argv[0]] is even. *)
Theorem X7_parsed_line_is_made_of_pairs :
  forall (strtol : string -> Z -> Z) (args : list string)
         (v0 v : main_vars),
    parse_args strtol args v0 = Parsed v ->
    Nat.even (List.length args) = true.
Proof.
  intros strtol.
  apply (parse_args_pairs_ind strtol
           (fun args _ _ => Nat.even (List.length args) = true)).
  - intros v. reflexivity.
  - intros a s rest v0 v _ _ IH. exact IH.
Qed.

Lemma X7_parsed_line_is_made_of_pairs_witness :
  let args := ["-w"; "0x86"; "-v"; "0x08"] in
  let v := mk_vars (mk_ts (-1) 3 0x38 0xff 0xff) (-1) 0x86 0x08 in
  parse_args C_strtol args main_init = Parsed v
  /\ Nat.even (List.length args) = true.
Proof.
  intros args v.
  assert (Hparse : parse_args C_strtol args main_init = Parsed v)
    by reflexivity.
  split; [exact Hparse |].
  exact (X7_parsed_line_is_made_of_pairs C_strtol args main_init v Hparse).
Defined.

Lemma to_uint8_range z : 0 <= to_uint8 z <= 255.
Proof.
  unfold to_uint8. pose proof (Z.mod_pos_bound z 256 ltac:(lia)). lia.
Qed.

Lemma assign_ts_after_loop strtol a s v :
  ts_after_loop (ts v) -> ts_after_loop (ts (assign strtol a s v)).
Proof.
  unfold ts_after_loop, assign. intros (Hfd & Hchip & Hfw & Hbus & Haddr).
  destruct (is_opt a "-a" "--address").
  { cbn. auto using to_uint8_range. }
  destruct (is_opt a "-b" "--bus").
  { cbn. auto using to_uint8_range. }
  destruct (is_opt a "-r" "--read"); [cbn; auto |].
  destruct (is_opt a "-w" "--write"); [cbn; auto |].
  destruct (is_opt a "-v" "--value"); cbn; auto.
Qed.

Lemma parse_args_ts_after_loop strtol args v0 v :
  parse_args strtol args v0 = Parsed v ->
  ts_after_loop (ts v0) -> ts_after_loop (ts v).
Proof.
  apply (parse_args_pairs_ind strtol
           (fun _ v0 v => ts_after_loop (ts v0) -> ts_after_loop (ts v))).
  - intros v1 H. exact H.
  - intros a s rest v1 v2 _ _ IH H. apply IH.
    apply assign_ts_after_loop. exact H.
Qed.

(** X8.  Whatever the arguments, after the loop [ts.fd] is still [-1] and
    [ts.chip_id] and [ts.fw_ver] are still [0xff]: no option reaches them.
    [ts.bus] and [ts.addr] are within [0,255], whatever number [strtol]
    gave. *)
Theorem X8_loop_keeps_ts_fields :
  forall (strtol : string -> Z -> Z) (argv : list string) (v : main_vars),
    parse_args strtol (tl argv) main_init = Parsed v ->
    fd (ts v) = -1 /\ chip_id (ts v) = 0xff /\ fw_ver (ts v) = 0xff
    /\ 0 <= bus (ts v) <= 255 /\ 0 <= addr (ts v) <= 255.
Proof.
  intros strtol argv v Hparse.
  apply (parse_args_ts_after_loop strtol (tl argv) main_init v Hparse).
  unfold ts_after_loop. cbn. lia.
Qed.

Lemma X8_loop_keeps_ts_fields_witness :
  let argv := ["ft5x06-register-tool"; "-a"; "0x1239"; "-b"; "260"] in
  let v := mk_vars (mk_ts (-1) 4 0x39 0xff 0xff) (-1) (-1) (-1) in
  parse_args C_strtol (tl argv) main_init = Parsed v
  /\ 0 <= bus (ts v) <= 255 /\ 0 <= addr (ts v) <= 255.
Proof.
  intros argv v.
  assert (Hparse : parse_args C_strtol (tl argv) main_init = Parsed v)
    by reflexivity.
  destruct (X8_loop_keeps_ts_fields C_strtol argv v Hparse)
    as (_ & _ & _ & Hbus & Haddr).
  split; [exact Hparse | split; assumption].
Defined.

Lemma fmt_d_byte_length n :
  0 <= n <= 255 -> (String.length (fmt_d n) <= 3)%nat.
Proof.
  intros Hn.
  assert (Hall : forallb
                   (fun k => Nat.leb (String.length (fmt_d (Z.of_nat k))) 3)
                   (seq 0 256) = true) by (vm_compute; reflexivity).
  rewrite forallb_forall in Hall.
  specialize (Hall (Z.to_nat n)). rewrite Z2Nat.id in Hall by lia.
  apply Nat.leb_le, Hall, in_seq. lia.
Qed.

Lemma string_length_app (a b : string) :
  String.length (a ++ b) = (String.length a + String.length b)%nat.
Proof. induction a as [| c a IH]; simpl; [| rewrite IH]; reflexivity. Qed.

(** X9.  The device path that line 205 writes into [char dev[16]] always
    fits, terminating zero included: [ts.bus] is a [uint8_t], so the path
    has at most 12 characters, whatever was given to [-b]. *)
Theorem X9_device_path_fits_buffer :
  forall (strtol : string -> Z -> Z) (argv : list string) (v : main_vars),
    parse_args strtol (tl argv) main_init = Parsed v ->
    (String.length (dev_path (ts v)) + 1 <= DEV_SIZE)%nat.
Proof.
  intros strtol argv v Hparse.
  destruct (parse_args_ts_after_loop strtol (tl argv) main_init v Hparse)
    as (_ & _ & _ & Hbus & _).
  { unfold ts_after_loop. cbn. lia. }
  unfold dev_path, DEV_SIZE. rewrite string_length_app.
  pose proof (fmt_d_byte_length (bus (ts v)) Hbus). cbn [String.length].
  lia.
Qed.

Lemma X9_device_path_fits_buffer_witness :
  let argv := ["ft5x06-register-tool"; "-b"; "99999999999"] in
  let v := set_bus main_init 255 in
  parse_args C_strtol (tl argv) main_init = Parsed v
  /\ dev_path (ts v) = "/dev/i2c-255"
  /\ (String.length (dev_path (ts v)) + 1 <= DEV_SIZE)%nat.
Proof.
  intros argv v.
  assert (Hparse : parse_args C_strtol (tl argv) main_init = Parsed v)
    by reflexivity.
  split; [exact Hparse | split; [reflexivity |]].
  exact (X9_device_path_fits_buffer C_strtol argv v Hparse).
Defined.

(** ** Runs of [main] *)

Lemma rdwr_calls_in tr :
  rdwr_calls tr <> [] -> exists h d, In (EvRdwr h d) tr.
Proof.
  induction tr as [| ev tr IH]; [intros H; contradiction H; reflexivity |].
  destruct ev; cbn; intros H;
    try (destruct (IH H) as (h & d & Hin); exists h, d; right; exact Hin).
  eexists _, _. left. reflexivity.
Qed.

Lemma close_calls_in tr h : In (EvClose h) tr -> In h (close_calls tr).
Proof.
  induction tr as [| ev tr IH]; [intros [] |].
  intros [-> | Hin]; [left; reflexivity |].
  destruct ev; cbn; auto.
Qed.

(** X10.  With no [-r], [-w] or [-v] (all three request variables
    negative) and a device that opens and binds, [main] opens the device
    node, binds the target address, closes the descriptor and returns 0: it
    prints nothing and submits nothing. *)
Theorem X10_no_request_opens_and_closes :
  forall (strtol : string -> Z -> Z) (argv : list string) (v : main_vars)
         (e : env),
    parse_args strtol (tl argv) main_init = Parsed v ->
    readaddr v < 0 -> writeaddr v < 0 -> writevalue v < 0 ->
    opens e v -> binds e v ->
    main strtol argv e
    = ([ EvOpen (dev_path (ts v));
         EvSlaveForce (os_open e (dev_path (ts v))) (addr (ts v));
         EvClose (os_open e (dev_path (ts v))) ],
       Returned 0).
Proof.
  intros strtol argv v e Hparse Hr Hw Hv Hopen Hbind.
  unfold main. rewrite Hparse, (main_session_ready e v Hopen Hbind).
  rewrite main_request_trace.
  set (h := os_open e (dev_path (ts v))).
  change (check_request (set_fd v h)) with (check_request v).
  change (readaddr (set_fd v h)) with (readaddr v).
  change (writeaddr (set_fd v h)) with (writeaddr v).
  assert (Hnone : check_request v = None)
    by (apply check_request_passes; lia).
  rewrite Hnone.
  destruct (Z.geb_spec (readaddr v) 0); [lia |].
  destruct (Z.geb_spec (writeaddr v) 0); [lia |].
  reflexivity.
Qed.

Lemma X10_no_request_opens_and_closes_witness :
  let argv := ["ft5x06-register-tool"; "-b"; "1"] in
  let v := set_bus main_init 1 in
  parse_args C_strtol (tl argv) main_init = Parsed v
  /\ opens Runs.good v /\ binds Runs.good v
  /\ main C_strtol argv Runs.good
     = ([EvOpen "/dev/i2c-1"; EvSlaveForce 3 0x38; EvClose 3], Returned 0).
Proof.
  intros argv v.
  assert (Hparse : parse_args C_strtol (tl argv) main_init = Parsed v)
    by reflexivity.
  assert (Hr : readaddr v < 0) by (simpl; lia).
  assert (Hw : writeaddr v < 0) by (simpl; lia).
  assert (Hv : writevalue v < 0) by (simpl; lia).
  assert (Hopen : opens Runs.good v) by (unfold opens; simpl; lia).
  assert (Hbind : binds Runs.good v) by reflexivity.
  repeat (split; [assumption |]).
  exact (X10_no_request_opens_and_closes C_strtol argv v Runs.good
           Hparse Hr Hw Hv Hopen Hbind).
Defined.

(** X11.  For a command line that parses, a transfer is submitted exactly
    when the device opens and binds and the request is either a read
    address alone, or a write address and a value that are both positive
    with no read address. *)
Theorem X11_transfer_iff_valid_request :
  forall (strtol : string -> Z -> Z) (argv : list string) (v : main_vars)
         (e : env),
    parse_args strtol (tl argv) main_init = Parsed v ->
    (rdwr_calls (fst (main strtol argv e)) <> []
     <-> opens e v /\ binds e v /\ (read_only v \/ write_only v)).
Proof.
  intros strtol argv v e Hparse. unfold read_only, write_only. split.
  - intros Hne. destruct (rdwr_calls_in _ Hne) as (h & d & Hin).
    destruct (main_transfer_inv strtol argv e h d Hin)
      as (v' & func & line & Hparse' & Hopen & Hbind & _ & Hcheck & _
          & Hkind).
    assert (v' = v) by congruence. subst v'.
    apply check_request_passes in Hcheck.
    split; [exact Hopen | split; [exact Hbind |]].
    destruct Hkind as [(Hr & _) | (Hr & Hw & _)]; lia.
  - intros (Hopen & Hbind & Hreq).
    assert (Hnone : check_request v = None)
      by (apply check_request_passes; lia).
    unfold main. rewrite Hparse, (main_session_ready e v Hopen Hbind).
    cbn [fst]. rewrite main_request_trace.
    set (h := os_open e (dev_path (ts v))).
    change (check_request (set_fd v h)) with (check_request v).
    change (readaddr (set_fd v h)) with (readaddr v).
    change (writeaddr (set_fd v h)) with (writeaddr v).
    rewrite Hnone, !rdwr_calls_app.
    destruct (Z.geb_spec (readaddr v) 0).
    + rewrite main_read_eq. cbn. discriminate.
    + destruct (Z.geb_spec (writeaddr v) 0); [| lia].
      rewrite main_write_eq. cbn. discriminate.
Qed.

Lemma X11_transfer_iff_valid_request_witness :
  let argv := ["ft5x06-register-tool"; "-r"; "0xa6"] in
  let v := set_readaddr main_init 0xa6 in
  parse_args C_strtol (tl argv) main_init = Parsed v
  /\ rdwr_calls (fst (main C_strtol argv Runs.good)) <> []
  /\ rdwr_calls (fst (main C_strtol argv Runs.no_device)) = [].
Proof.
  intros argv v.
  assert (Hparse : parse_args C_strtol (tl argv) main_init = Parsed v)
    by reflexivity.
  split; [exact Hparse | split; [| reflexivity]].
  apply (proj2 (X11_transfer_iff_valid_request C_strtol argv v Runs.good
                  Hparse)).
  split; [unfold opens; simpl; lia | split; [reflexivity |]].
  left. unfold read_only. simpl. lia.
Defined.

(** X12.  [close] is only ever called on the descriptor that a successful
    [open] of this run returned, after the bind succeeded, and it is the
    last thing the run does: no [close] precedes it and no event follows
    it; [main] then returns 0. *)
Theorem X12_close_is_last_and_on_open_descriptor :
  forall (strtol : string -> Z -> Z) (argv : list string) (e : env)
         (h : Z),
    In (EvClose h) (fst (main strtol argv e)) ->
    exists v before,
      parse_args strtol (tl argv) main_init = Parsed v
      /\ opens e v /\ binds e v
      /\ h = os_open e (dev_path (ts v))
      /\ fst (main strtol argv e) = (before ++ [EvClose h])%list
      /\ close_calls before = []
      /\ snd (main strtol argv e) = Returned 0.
Proof.
  intros strtol argv e h. unfold main.
  destruct (parse_args strtol (tl argv) main_init) as [v | |] eqn:Hparse.
  2: { cbn. intros [H | []]. discriminate. }
  2: { cbn. intros []. }
  destruct (opens_dec e v) as [Hopen | Hopen].
  2: { rewrite (main_session_no_device e v Hopen). cbn [fst].
       intros [H | [H | []]]; discriminate. }
  destruct (binds_dec e v) as [Hbind | Hbind].
  2: { rewrite (main_session_no_bind e v Hopen Hbind). cbn [fst].
       intros [H | [H | [H | []]]]; discriminate. }
  rewrite (main_session_ready e v Hopen Hbind). cbn [fst snd].
  set (h0 := os_open e (dev_path (ts v))).
  set (req := fst (main_request e (set_fd v h0))).
  intros Hin.
  assert (Hh : h = h0).
  { apply in_app_or in Hin. destruct Hin as [Hin | Hin].
    { destruct Hin as [H | [H | []]]; discriminate. }
    apply in_app_or in Hin. destruct Hin as [Hin | [H | []]].
    - apply close_calls_in in Hin. subst req.
      rewrite main_request_no_close in Hin. destruct Hin.
    - congruence. }
  subst h.
  exists v, ([EvOpen (dev_path (ts v)); EvSlaveForce h0 (addr (ts v))]
               ++ req)%list.
  split; [reflexivity |].
  split; [exact Hopen |].
  split; [exact Hbind |].
  split; [reflexivity |].
  split; [apply app_assoc |].
  split; [| reflexivity].
  rewrite close_calls_app. subst req.
  rewrite main_request_no_close. reflexivity.
Qed.

Lemma X12_close_is_last_and_on_open_descriptor_witness :
  let argv := ["ft5x06-register-tool"; "-r"; "0xa6"] in
  In (EvClose 3) (fst (main C_strtol argv Runs.silent_bus))
  /\ exists before,
       fst (main C_strtol argv Runs.silent_bus)
       = (before ++ [EvClose 3])%list
       /\ close_calls before = [].
Proof.
  intros argv.
  assert (Hin : In (EvClose 3) (fst (main C_strtol argv Runs.silent_bus)))
    by (vm_compute; auto 10).
  split; [exact Hin |].
  destruct (X12_close_is_last_and_on_open_descriptor
              C_strtol argv Runs.silent_bus 3 Hin)
    as (v & before & _ & _ & _ & _ & Htrace & Hnone & _).
  exists before. split; assumption.
Defined.

(** X13.  Every transfer of a run goes to the descriptor that [open]
    returned (a non-negative one), after the bind of [ts.addr] on that
    descriptor; each of its messages is addressed to [ts.addr]; [nmsgs] is
    the number of messages and the length of every message is the size of
    its buffer, so the driver is never told to go past a buffer. *)
Theorem X13_transfer_targets_bound_device :
  forall (strtol : string -> Z -> Z) (argv : list string) (v : main_vars)
         (e : env) (h : Z) (d : i2c_rdwr_ioctl_data),
    parse_args strtol (tl argv) main_init = Parsed v ->
    In (EvRdwr h d) (fst (main strtol argv e)) ->
    h = os_open e (dev_path (ts v)) /\ 0 <= h
    /\ Forall (fun m => msg_addr m = addr (ts v)) (msgs d)
    /\ nmsgs d = Z.of_nat (List.length (msgs d))
    /\ Forall msg_fits (msgs d)
    /\ exists after,
         fst (main strtol argv e)
         = ([ EvOpen (dev_path (ts v)); EvSlaveForce h (addr (ts v));
              EvRdwr h d ] ++ after)%list.
Proof.
  intros strtol argv v e h d Hparse Hin.
  destruct (main_transfer_inv strtol argv e h d Hin)
    as (v' & func & line & Hparse' & Hopen & _ & Hh & _ & Hrun & Hkind).
  assert (v' = v) by congruence. subst v'.
  split; [exact Hh |].
  split; [unfold opens in Hopen; rewrite Hh; exact Hopen |].
  assert (Hd : Forall (fun m => msg_addr m = addr (ts v)) (msgs d)
               /\ nmsgs d = Z.of_nat (List.length (msgs d))
               /\ Forall msg_fits (msgs d)).
  { destruct Hkind as [(_ & _ & -> & _) | (_ & _ & _ & -> & _)];
      unfold read_request, write_request, msg_fits; cbn;
      repeat split; repeat constructor. }
  destruct Hd as (Ha & Hn & Hf).
  repeat (split; [assumption |]).
  eexists. rewrite Hrun. reflexivity.
Qed.

Lemma X13_transfer_targets_bound_device_witness :
  let argv := ["ft5x06-register-tool"; "-a"; "0x39"; "-r"; "0xa6"] in
  let v := mk_vars (mk_ts (-1) 3 0x39 0xff 0xff) 0xa6 (-1) (-1) in
  let d := read_request (mk_ts 3 3 0x39 0xff 0xff) 0xa6 0 in
  parse_args C_strtol (tl argv) main_init = Parsed v
  /\ In (EvRdwr 3 d) (fst (main C_strtol argv Runs.good))
  /\ Forall (fun m => msg_addr m = 0x39) (msgs d)
  /\ Forall msg_fits (msgs d).
Proof.
  intros argv v d.
  assert (Hparse : parse_args C_strtol (tl argv) main_init = Parsed v)
    by reflexivity.
  assert (Hin : In (EvRdwr 3 d) (fst (main C_strtol argv Runs.good)))
    by (vm_compute; auto).
  destruct (X13_transfer_targets_bound_device
              C_strtol argv v Runs.good 3 d Hparse Hin)
    as (_ & _ & Haddr & _ & Hfits & _).
  repeat (split; [assumption |]). exact Hfits.
Defined.

(** X14.  The register address of a read is the low byte of [readaddr]:
    [wbuf] is a [uint8_t] (line 232).  For a read address above 255 the
    register that is read is not the one that was asked for, and nothing in
    the output says so. *)
Theorem X14_read_address_is_truncated :
  forall (strtol : string -> Z -> Z) (argv : list string) (v : main_vars)
         (e : env) (h : Z) (d : i2c_rdwr_ioctl_data),
    parse_args strtol (tl argv) main_init = Parsed v ->
    In (EvRdwr h d) (fst (main strtol argv e)) ->
    readaddr v > 255 ->
    d = mk_data [ mk_msg (addr (ts v)) 0 1 [readaddr v mod 256];
                  mk_msg (addr (ts v)) I2C_M_RD 1 [of_byte (os_rbuf e)] ] 2
    /\ readaddr v mod 256 <> readaddr v
    /\ stdout_lines (fst (main strtol argv e))
       = ["[main]: "
            ++ two_digit_hex
                 (hd (of_byte (os_rbuf e))
                    (store_bytes 1 (snd (os_rdwr e h d))
                       [of_byte (os_rbuf e)]))
            ++ nl ++ nl].
Proof.
  intros strtol argv v e h d Hparse Hin Hbig.
  destruct (main_transfer_inv strtol argv e h d Hin)
    as (v' & func & line & Hparse' & _ & _ & _ & _ & Hrun & Hkind).
  assert (v' = v) by congruence. subst v'.
  destruct Hkind as [(_ & _ & Hd & Hline) | (Hneg & _)]; [| lia].
  split; [exact Hd |].
  split.
  { pose proof (Z.mod_pos_bound (readaddr v) 256 ltac:(lia)). lia. }
  rewrite Hrun. cbn [fst]. rewrite !stdout_lines_app.
  destruct (error_events_quiet func (fst (os_rdwr e h d))) as (_ & _ & Hq).
  rewrite Hq, Hline. cbn [stdout_lines flat_map app].
  rewrite fmt_02x_byte.
  - rewrite string_app_assoc. reflexivity.
  - destruct (snd (os_rdwr e h d)) as [| b rest]; cbn [store_bytes hd];
      apply of_byte_range.
Qed.

Lemma X14_read_address_is_truncated_witness :
  let argv := ["ft5x06-register-tool"; "-r"; "0x1a6"] in
  let v := set_readaddr main_init 0x1a6 in
  let d := read_request (mk_ts 3 3 0x38 0xff 0xff) 0xa6 0 in
  parse_args C_strtol (tl argv) main_init = Parsed v
  /\ In (EvRdwr 3 d) (fst (main C_strtol argv Runs.good))
  /\ readaddr v > 255
  /\ stdout_lines (fst (main C_strtol argv Runs.good))
     = ["[main]: 12" ++ nl ++ nl].
Proof.
  intros argv v d.
  assert (Hparse : parse_args C_strtol (tl argv) main_init = Parsed v)
    by reflexivity.
  assert (Hin : In (EvRdwr 3 d) (fst (main C_strtol argv Runs.good)))
    by (vm_compute; auto).
  assert (Hbig : readaddr v > 255) by (simpl; lia).
  destruct (X14_read_address_is_truncated
              C_strtol argv v Runs.good 3 d Hparse Hin Hbig)
    as (_ & _ & Hout).
  repeat (split; [assumption |]). exact Hout.
Defined.

(** X15.  [main] prints [rbuf] after a read whether or not the transfer
    succeeded (line 235 does not look at [ret]).  When the driver stored
    nothing, the byte printed is what the uninitialised [rbuf] held. *)
Theorem X15_failed_read_prints_uninitialised_byte :
  forall (strtol : string -> Z -> Z) (argv : list string) (v : main_vars)
         (e : env) (h : Z) (d : i2c_rdwr_ioctl_data),
    parse_args strtol (tl argv) main_init = Parsed v ->
    In (EvRdwr h d) (fst (main strtol argv e)) ->
    readaddr v >= 0 ->
    snd (os_rdwr e h d) = [] ->
    stdout_lines (fst (main strtol argv e))
    = ["[main]: " ++ two_digit_hex (of_byte (os_rbuf e)) ++ nl ++ nl].
Proof.
  intros strtol argv v e h d Hparse Hin Hr Hnothing.
  destruct (main_transfer_inv strtol argv e h d Hin)
    as (v' & func & line & Hparse' & _ & _ & _ & _ & Hrun & Hkind).
  assert (v' = v) by congruence. subst v'.
  destruct Hkind as [(_ & _ & _ & Hline) | (Hneg & _)]; [| lia].
  rewrite Hrun. cbn [fst]. rewrite !stdout_lines_app.
  destruct (error_events_quiet func (fst (os_rdwr e h d))) as (_ & _ & Hq).
  rewrite Hq, Hline, Hnothing. cbn [stdout_lines flat_map app store_bytes hd].
  rewrite (fmt_02x_byte _ (of_byte_range (os_rbuf e))).
  rewrite string_app_assoc. reflexivity.
Qed.

Lemma X15_failed_read_prints_uninitialised_byte_witness :
  let argv := ["ft5x06-register-tool"; "-r"; "0xa6"] in
  let v := set_readaddr main_init 0xa6 in
  let d := read_request (mk_ts 3 3 0x38 0xff 0xff) 0xa6 0x5a in
  parse_args C_strtol (tl argv) main_init = Parsed v
  /\ In (EvRdwr 3 d) (fst (main C_strtol argv Runs.silent_bus))
  /\ snd (os_rdwr Runs.silent_bus 3 d) = []
  /\ stdout_lines (fst (main C_strtol argv Runs.silent_bus))
     = ["[main]: 5a" ++ nl ++ nl].
Proof.
  intros argv v d.
  assert (Hparse : parse_args C_strtol (tl argv) main_init = Parsed v)
    by reflexivity.
  assert (Hin : In (EvRdwr 3 d) (fst (main C_strtol argv Runs.silent_bus)))
    by (vm_compute; auto).
  assert (Hr : readaddr v >= 0) by (simpl; lia).
  assert (Hnothing : snd (os_rdwr Runs.silent_bus 3 d) = []) by reflexivity.
  repeat (split; [assumption |]).
  exact (X15_failed_read_prints_uninitialised_byte
           C_strtol argv v Runs.silent_bus 3 d Hparse Hin Hr Hnothing).
Defined.

(** X16.  After a write, [main] prints the line [address = value] even
    when the transfer failed ([ft5x06_write_reg] returns nothing, line 239
    is unconditional): on a failed write [stdout] carries that line and
    [stderr] the error line of [ft5x06_i2c_write]. *)
Theorem X16_write_line_is_printed_on_failure :
  forall (strtol : string -> Z -> Z) (argv : list string) (v : main_vars)
         (e : env) (h : Z) (d : i2c_rdwr_ioctl_data),
    parse_args strtol (tl argv) main_init = Parsed v ->
    In (EvRdwr h d) (fst (main strtol argv e)) ->
    readaddr v < 0 ->
    fst (os_rdwr e h d) < 0 ->
    stdout_lines (fst (main strtol argv e))
    = ["[main]: " ++ fmt_02x (writeaddr v) ++ " = "
         ++ fmt_02x (writevalue v) ++ nl]
    /\ stderr_lines (fst (main strtol argv e))
       = [error_line "ft5x06_i2c_write" (fst (os_rdwr e h d))].
Proof.
  intros strtol argv v e h d Hparse Hin Hr Hfail.
  destruct (main_transfer_inv strtol argv e h d Hin)
    as (v' & func & line & Hparse' & _ & _ & _ & _ & Hrun & Hkind).
  assert (v' = v) by congruence. subst v'.
  destruct Hkind as [(Hpos & _) | (_ & _ & -> & _ & ->)]; [lia |].
  rewrite Hrun, (error_events_failed _ _ Hfail). cbn [fst].
  rewrite !string_app_assoc. split; reflexivity.
Qed.

Lemma X16_write_line_is_printed_on_failure_witness :
  let argv := ["ft5x06-register-tool"; "-w"; "0x86"; "-v"; "0x08"] in
  let v := mk_vars (mk_ts (-1) 3 0x38 0xff 0xff) (-1) 0x86 0x08 in
  let d := write_request (mk_ts 3 3 0x38 0xff 0xff) 0x86 0x08 in
  parse_args C_strtol (tl argv) main_init = Parsed v
  /\ In (EvRdwr 3 d) (fst (main C_strtol argv Runs.silent_bus))
  /\ fst (os_rdwr Runs.silent_bus 3 d) < 0
  /\ stdout_lines (fst (main C_strtol argv Runs.silent_bus))
     = ["[main]: 86 = 08" ++ nl]
  /\ stderr_lines (fst (main C_strtol argv Runs.silent_bus))
     = ["[ft5x06_i2c_write]: Error -1" ++ nl].
Proof.
  intros argv v d.
  assert (Hparse : parse_args C_strtol (tl argv) main_init = Parsed v)
    by reflexivity.
  assert (Hin : In (EvRdwr 3 d) (fst (main C_strtol argv Runs.silent_bus)))
    by (vm_compute; auto).
  assert (Hr : readaddr v < 0) by (simpl; lia).
  assert (Hfail : fst (os_rdwr Runs.silent_bus 3 d) < 0) by (simpl; lia).
  repeat (split; [assumption |]).
  exact (X16_write_line_is_printed_on_failure
           C_strtol argv v Runs.silent_bus 3 d Hparse Hin Hr Hfail).
Defined.

(** X17.  The only thing a run ever writes to [stderr] is the error line
    of a transfer that returned a negative result: either [stderr] stays
    empty, or the run submitted a transfer whose result was negative and
    [stderr] holds exactly its error line.  The failures of [open] and of
    the bind, the rejections and the usage text all go to [stdout]. *)
Theorem X17_stderr_only_for_failed_transfer :
  forall (strtol : string -> Z -> Z) (argv : list string) (e : env),
    stderr_lines (fst (main strtol argv e)) = []
    \/ exists h d func,
         In (EvRdwr h d) (fst (main strtol argv e))
         /\ fst (os_rdwr e h d) < 0
         /\ stderr_lines (fst (main strtol argv e))
            = [error_line func (fst (os_rdwr e h d))].
Proof.
  intros strtol argv e.
  destruct (rdwr_calls (fst (main strtol argv e))) as [| c l] eqn:Hcalls.
  - left. revert Hcalls. unfold main.
    destruct (parse_args strtol (tl argv) main_init) as [v | |];
      [| reflexivity | reflexivity].
    destruct (opens_dec e v) as [Hopen | Hopen].
    2: { rewrite (main_session_no_device e v Hopen). reflexivity. }
    destruct (binds_dec e v) as [Hbind | Hbind].
    2: { rewrite (main_session_no_bind e v Hopen Hbind). reflexivity. }
    rewrite (main_session_ready e v Hopen Hbind). cbn [fst].
    rewrite main_request_trace.
    set (v' := set_fd v (os_open e (dev_path (ts v)))).
    destruct (check_request v'); [reflexivity |].
    destruct (readaddr v' >=? 0).
    { rewrite main_read_eq. cbn. discriminate. }
    destruct (writeaddr v' >=? 0); [| reflexivity].
    rewrite main_write_eq. cbn. discriminate.
  - assert (Hne : rdwr_calls (fst (main strtol argv e)) <> [])
      by (rewrite Hcalls; discriminate).
    destruct (rdwr_calls_in _ Hne) as (h & d & Hin).
    destruct (main_transfer_inv strtol argv e h d Hin)
      as (v & func & line & _ & _ & _ & _ & _ & Hrun & _).
    destruct (Z.ltb_spec (fst (os_rdwr e h d)) 0) as [Hfail | Hok].
    + right. exists h, d, func.
      split; [exact Hin | split; [exact Hfail |]].
      rewrite Hrun, (error_events_failed _ _ Hfail). reflexivity.
    + left. rewrite Hrun. unfold error_events.
      destruct (Z.ltb_spec (fst (os_rdwr e h d)) 0); [lia |].
      reflexivity.
Qed.

(** X18.  When the device node does not open, [main] reports it on
    [stdout] with the path it tried and the text of [strerror(errno)], and
    returns what [open] returned; it does not bind, transfer or close, and
    the request is not even checked. *)
Theorem X18_open_failure_stops_the_run :
  forall (strtol : string -> Z -> Z) (argv : list string) (v : main_vars)
         (e : env),
    parse_args strtol (tl argv) main_init = Parsed v ->
    os_open e (dev_path (ts v)) < 0 ->
    main strtol argv e
    = ([ EvOpen (dev_path (ts v));
         EvStdout ("[main]: Couldn't open " ++ dev_path (ts v) ++ ": "
                     ++ os_strerror e ++ nl) ],
       Returned (os_open e (dev_path (ts v)))).
Proof.
  intros strtol argv v e Hparse Hfail.
  assert (Hopen : ~ opens e v) by (unfold opens; lia).
  unfold main. rewrite Hparse, (main_session_no_device e v Hopen).
  rewrite !string_app_assoc. reflexivity.
Qed.

Lemma X18_open_failure_stops_the_run_witness :
  let argv :=
    ["ft5x06-register-tool"; "-b"; "7"; "-r"; "0xa6"; "-w"; "0x86"] in
  let v := mk_vars (mk_ts (-1) 7 0x38 0xff 0xff) 0xa6 0x86 (-1) in
  parse_args C_strtol (tl argv) main_init = Parsed v
  /\ os_open Runs.no_device (dev_path (ts v)) < 0
  /\ main C_strtol argv Runs.no_device
     = ([ EvOpen "/dev/i2c-7";
          EvStdout ("[main]: Couldn't open /dev/i2c-7: "
                      ++ "No such file or directory" ++ nl) ],
        Returned (-1)).
Proof.
  intros argv v.
  assert (Hparse : parse_args C_strtol (tl argv) main_init = Parsed v)
    by reflexivity.
  assert (Hfail : os_open Runs.no_device (dev_path (ts v)) < 0)
    by (simpl; lia).
  repeat (split; [assumption |]).
  exact (X18_open_failure_stops_the_run C_strtol argv v Runs.no_device
           Hparse Hfail).
Defined.

(** X19.  A negative read address is no read address: the run after the
    loop is the one with [readaddr] left at [-1], since lines 220 and 231
    only test [readaddr >= 0].  An argument such as [-r -5] is dropped
    without a message. *)
Theorem X19_negative_read_address_is_ignored :
  forall (strtol : string -> Z -> Z) (argv : list string) (v : main_vars)
         (e : env),
    parse_args strtol (tl argv) main_init = Parsed v ->
    readaddr v < 0 ->
    main strtol argv e = main_session e (set_readaddr v (-1)).
Proof.
  intros strtol argv v e Hparse Hneg.
  unfold main. rewrite Hparse.
  set (v' := set_readaddr v (-1)).
  destruct (opens_dec e v) as [Hopen | Hopen].
  2: { rewrite (main_session_no_device e v Hopen).
       rewrite (main_session_no_device e v' Hopen). reflexivity. }
  destruct (binds_dec e v) as [Hbind | Hbind].
  2: { rewrite (main_session_no_bind e v Hopen Hbind).
       rewrite (main_session_no_bind e v' Hopen Hbind). reflexivity. }
  rewrite (main_session_ready e v Hopen Hbind).
  rewrite (main_session_ready e v' Hopen Hbind).
  change (dev_path (ts v')) with (dev_path (ts v)).
  change (addr (ts v')) with (addr (ts v)).
  set (h := os_open e (dev_path (ts v))).
  rewrite !main_request_trace.
  unfold check_request.
  cbn [v' ts set_readaddr set_fd readaddr writeaddr writevalue].
  destruct (Z.geb_spec (readaddr v) 0); [lia |].
  reflexivity.
Qed.

Lemma X19_negative_read_address_is_ignored_witness :
  let argv :=
    ["ft5x06-register-tool"; "-r"; "-5"; "-w"; "0x86"; "-v"; "0x08"] in
  let v := mk_vars (mk_ts (-1) 3 0x38 0xff 0xff) (-5) 0x86 0x08 in
  parse_args C_strtol (tl argv) main_init = Parsed v
  /\ readaddr v < 0
  /\ main C_strtol argv Runs.good
     = main C_strtol ["ft5x06-register-tool"; "-w"; "0x86"; "-v"; "0x08"]
         Runs.good.
Proof.
  intros argv v.
  assert (Hparse : parse_args C_strtol (tl argv) main_init = Parsed v)
    by reflexivity.
  assert (Hneg : readaddr v < 0) by (simpl; lia).
  repeat (split; [assumption |]).
  rewrite (X19_negative_read_address_is_ignored C_strtol argv v Runs.good
             Hparse Hneg).
  reflexivity.
Defined.

(** * Write arguments above a byte *)

(** ** From the arguments to the stored integers *)









